(** * Authentication controllers (server/controllers/auth.js)

    A shallow embedding of the request handlers [register],
    [registerActivate], [login], [authMiddleware], [adminMiddleware],
    [forgetPassword] and [resetPassword].

    The handlers are callback code around three collaborators: the
    mongoose [User] model, the [jsonwebtoken] codec and the SES mail
    client.  Each handler is embedded as a function from the stored
    collection and the request to the collection afterwards and the list
    of effects it performed, in program order.  What a collaborator
    answers (a lookup error, a rejected write, a rejected mail, the
    clock) is an input, gathered in the record [World]. *)

From Stdlib Require Import Ascii String DecimalString List ZArith Bool.
Import ListNotations.

Open Scope string_scope.
Open Scope Z_scope.

(** ** JSON response bodies *)

#[warnings="-register-all"]
Inductive json : Type :=
| JStr (s : string)
| JObj (fields : list (string * json)).

(** The keys of an object, in order; a string has none. *)
Definition keys (j : json) : list string :=
  match j with
  | JStr _ => []
  | JObj fields => map fst fields
  end.

(** Property access [j.k]; [None] stands for [undefined]. *)
Fixpoint assoc (k : string) (fields : list (string * json)) : option json :=
  match fields with
  | [] => None
  | (k', v) :: rest => if String.eqb k k' then Some v else assoc k rest
  end.

Definition get (k : string) (j : json) : option json :=
  match j with
  | JStr _ => None
  | JObj fields => assoc k fields
  end.

(** ** The User collection *)

Module User.

(** A stored document.  [password] is the value assigned to the
    document's [password] path; what the schema keeps for it is the
    schema's business (models/user is outside this file), and the only
    reader of it here is the [authenticate] method, a parameter of the
    handlers below. *)
Record doc : Type := mk {
  _id : string;
  username : string;
  name : string;
  email : string;
  password : string;
  role : string;
  resetPasswordLink : string
}.

Definition collection : Type := list doc.

(** Mongo answers a query with the first matching document. *)
Definition find_first (q : doc -> bool) (db : collection) : option doc :=
  find q db.

(** The three filters the controllers use. *)
Definition by_email (e : string) (u : doc) : bool := String.eqb (email u) e.
Definition by_id (i : string) (u : doc) : bool := String.eqb (_id u) i.
Definition by_resetPasswordLink (l : string) (u : doc) : bool :=
  String.eqb (resetPasswordLink u) l.

(** [lodash.extend(user, {password, resetPasswordLink})] *)
Definition extend (u : doc) (pw link : string) : doc :=
  mk (_id u) (username u) (name u) (email u) pw (role u) link.

(** The patch [{resetPasswordLink: token}] of [user.updateOne]. *)
Definition set_resetPasswordLink (link : string) (u : doc) : doc :=
  mk (_id u) (username u) (name u) (email u) (password u) (role u) link.

(** [user.updateOne(patch)]: the stored document with the id of
    [user] is patched. *)
Definition updateOne (user : doc) (patch : doc -> doc) (db : collection)
  : collection :=
  map (fun x => if String.eqb (_id x) (_id user) then patch x else x) db.

(** [user.save()] of a document that was read from the collection:
    the stored document with its id takes its fields. *)
Definition save (user : doc) (db : collection) : collection :=
  map (fun x => if String.eqb (_id x) (_id user) then user else x) db.

(** [newUser.save()] of a document made by [new User]: inserted. *)
Definition insert (newUser : doc) (db : collection) : collection :=
  (db ++ [newUser])%list.

End User.

(** ** Configuration: [process.env] *)

Module process.
Record env : Type := mkEnv {
  JWT_ACCOUNT_ACTIVATION : string;
  JWT_SECRET : string;
  JWT_RESET_PASSWORD : string;
  JWT_EXPIRED : string;
  APPLICATION_ERROR_CODE : Z
}.
End process.

(** ** What the collaborators answer *)

Record World : Type := mkWorld {
  now : Z;                    (* the clock, in seconds, that jwt reads *)
  findOne_err : bool;         (* the lookup calls back with [err] *)
  write_err : bool;           (* save / updateOne calls back with [err] *)
  sendEmail_rejects : bool;   (* the promise of ses.sendEmail rejects *)
  shortId_generate : string;  (* what shortId.generate() returns *)
  new_ObjectId : string       (* the id mongoose gives a new document *)
}.

(** ** Token payloads *)

Inductive Payload : Type :=
| ActivationClaims (name email password : string)  (* {name, email, password} *)
| SessionClaims (_id : string)                     (* {_id: user._id} *)
| ResetClaims (name : string).                     (* {name: user.name} *)

(** What [registerActivate] takes out of a decoded activation token. *)
Record Registration : Type := mkRegistration {
  reg_name : string;
  reg_email : string;
  reg_password : string
}.

(** ** Effects *)

(** The arguments of [ses.sendEmail]; the two builders of utils/email
    are kept as constructors. *)
Inductive EmailParams : Type :=
| emailVerificationParams (email token : string)
| emailForgetPasswordParams (email token : string).

Inductive exn : Type :=
| ReferenceError (identifier : string).

(** One entry per effect, in the order the handler performs them.
    [Persist d ok] is a write of [d] sent to the store ([save] or
    [updateOne]), [ok] telling whether the store took it.  [SendEmail]
    is a call of [ses.sendEmail], with whether its promise resolved.
    [Respond] is a call [res.status(s).json(b)] ([res.json(b)] alone is
    status 200); when a handler makes two such calls the client is
    answered by the first.  [Next] is the call of [next()], and [Throw]
    an exception that leaves the callback. *)
Inductive event : Type :=
| Persist (d : User.doc) (ok : bool)
| SendEmail (params : EmailParams) (delivered : bool)
| Respond (status : Z) (body : json)
| Next
| Throw (e : exn).

Definition error (msg : string) : json := JObj [("error", JStr msg)].
Definition message (msg : string) : json := JObj [("message", JStr msg)].

Definition is_response (e : event) : bool :=
  match e with Respond _ _ => true | _ => false end.


(** The answer the client receives: the first response of the trace. *)
Definition answer (t : list event) : option event := find is_response t.

(** The body of a response carries a session token when it has a
    [token] key. *)
Definition carries_token (e : event) : bool :=
  match e with
  | Respond _ body => match get "token" body with Some _ => true | None => false end
  | _ => false
  end.

(** ** The collaborators *)

(** [jsonwebtoken].  [sign payload secret expiresIn clock] is the token;
    the clock is an argument because the library stamps the payload with
    the issue time, in seconds.  It is the token for options the library
    takes: with a secret that is not set or an [expiresIn] it cannot
    read, [jwt.sign] throws instead, and the calls of [register] and
    [forgetPassword] are described for configurations where it does
    not.  [verify token secret clock] is [None]
    when the callback receives an error (bad signature, malformed,
    expired).  [decode] is only called by [registerActivate], on a token
    that verified under the activation secret, and is destructured as
    [{name, email, password}]. *)
Module jwt.
Record codec : Type := mk {
  sign : Payload -> string -> string -> Z -> string;
  verify : string -> string -> Z -> option Payload;
  decode : string -> Registration
}.
End jwt.

(** Everything the controllers import or read from the environment. *)
Record Deps : Type := mkDeps {
  env : process.env;
  jwtlib : jwt.codec;
  (* the schema method [user.authenticate(password)] *)
  authenticate : User.doc -> string -> bool;
  (* [listEnum.user.role.admin] *)
  role_admin : string;
  (* the role the schema gives a new document *)
  role_default : string
}.

(** The callback arguments [(err, user)] of [User.findOne(q).exec]. *)
Definition findOne (w : World) (q : User.doc -> bool) (db : User.collection)
  : bool * option User.doc :=
  if findOne_err w then (true, None) else (false, User.find_first q db).

(** [if (resetPasswordLink)]: an absent field and the empty string are
    falsy. *)
Definition truthy (field : option string) : bool :=
  match field with
  | None => false
  | Some s => negb (String.eqb s "")
  end.

Section Controllers.

Variable D : Deps.

(** Modelled from the spec: the defaults of the User schema
    (models/user), which is not part of this file: the role defaults
    to regular at creation and resetPasswordLink is empty when no
    reset is pending. *)
Definition new_User (w : World) (username name email password : string)
  : User.doc :=
  User.mk (new_ObjectId w) username name email password (role_default D) "".

Definition register (w : World) (db : User.collection)
    (name email password : string) : User.collection * list event :=
  match snd (findOne w (User.by_email email) db) with
  | Some _ => (db, [Respond 400 (error "Email is taken")])
  | None =>
      let token :=
        jwt.sign (jwtlib D) (ActivationClaims name email password)
          (process.JWT_ACCOUNT_ACTIVATION (env D))
          (process.JWT_EXPIRED (env D)) (now w) in
      let emailVerificationParam := emailVerificationParams email token in
      if sendEmail_rejects w then
        (db, [SendEmail emailVerificationParam false;
              Respond 422 (error ("We could not verify your email " ++ email
                                  ++ ". Please try again"))])
      else
        (db, [SendEmail emailVerificationParam true;
              Respond 200 (message ("Email has been sent to " ++ email
                ++ ". Follow the instructions to complete your registration"))])
  end.

Definition registerActivate (w : World) (db : User.collection)
    (token : string) : User.collection * list event :=
  match jwt.verify (jwtlib D) token
          (process.JWT_ACCOUNT_ACTIVATION (env D)) (now w) with
  | None =>
      (db, [Respond (process.APPLICATION_ERROR_CODE (env D)) (error "Expired link. Try again")])
  | Some _ =>
      let decoded := jwt.decode (jwtlib D) token in
      let username := shortId_generate w in
      match snd (findOne w (User.by_email (reg_email decoded)) db) with
      | Some _ => (db, [Respond 401 (error "Email is already taken")])
      | None =>
          let newUser :=
            new_User w username (reg_name decoded) (reg_email decoded)
              (reg_password decoded) in
          if write_err w then
            (db, [Persist newUser false;
                  Respond 401 (error "Unable to save your data. Try again.")])
          else
            (User.insert newUser db,
             [Persist newUser true;
              Respond 200 (message "Registration success. Please login.")])
      end
  end.

Definition login (w : World) (db : User.collection)
    (email password : string) : User.collection * list event :=
  match findOne w (User.by_email email) db with
  | (true, _) | (_, None) =>
      (db, [Respond (process.APPLICATION_ERROR_CODE (env D))
              (error "User with that email doesn't exists. Please register.")])
  | (false, Some user) =>
      if negb (authenticate D user password) then
        (db, [Respond (process.APPLICATION_ERROR_CODE (env D))
                (error "Password isn't match. Please try again.")])
      else
        let token :=
          jwt.sign (jwtlib D) (SessionClaims (User._id user))
            (process.JWT_SECRET (env D)) "7d" (now w) in
        (db, [Respond 200
                (JObj [("token", JStr token);
                       ("user", JObj [("_id", JStr (User._id user));
                                      ("name", JStr (User.name user));
                                      ("email", JStr (User.email user));
                                      ("role", JStr (User.role user))])])])
  end.

(** The two middlewares get [req.user._id] and give back
    [req.profile] ([None] when it is not set). *)
Definition authMiddleware (w : World) (db : User.collection)
    (authUserId : string) : option User.doc * list event :=
  match findOne w (User.by_id authUserId) db with
  | (true, _) | (_, None) =>
      (None, [Respond (process.APPLICATION_ERROR_CODE (env D)) (error "User is not found")])
  | (false, Some user) => (Some user, [Next])
  end.

Definition adminMiddleware (w : World) (db : User.collection)
    (authAdminId : string) : option User.doc * list event :=
  match findOne w (User.by_id authAdminId) db with
  | (true, _) | (_, None) =>
      (None, [Respond (process.APPLICATION_ERROR_CODE (env D)) (error "User is not found")])
  | (false, Some user) =>
      if negb (String.eqb (User.role user) (role_admin D)) then
        (None, [Respond (process.APPLICATION_ERROR_CODE (env D))
                  (error "Admin resource. Access is denied.")])
      else (Some user, [Next])
  end.

(** In the [catch] of the mail promise the status is read from the
    bare identifier [APPLICATION_ERROR_CODE], which nothing in the
    module binds (every other place reads [process.env]): evaluating
    the argument throws before [res.status] is called. *)
Definition forgetPassword (w : World) (db : User.collection)
    (email : string) : User.collection * list event :=
  match findOne w (User.by_email email) db with
  | (true, _) | (_, None) =>
      (db, [Respond (process.APPLICATION_ERROR_CODE (env D))
              (error "User with that email does not exists")])
  | (false, Some user) =>
      let token :=
        jwt.sign (jwtlib D) (ResetClaims (User.name user))
          (process.JWT_RESET_PASSWORD (env D)) "60m" (now w) in
      let params := emailForgetPasswordParams email token in
      let patch := User.set_resetPasswordLink token in
      if write_err w then
        (db, [Persist (patch user) false;
              Respond (process.APPLICATION_ERROR_CODE (env D))
                (error "Reset password is failed. Try later.")])
      else
        let db' := User.updateOne user patch db in
        if sendEmail_rejects w then
          (db', [Persist (patch user) true;
                 SendEmail params false;
                 Throw (ReferenceError "APPLICATION_ERROR_CODE")])
        else
          (db', [Persist (patch user) true;
                 SendEmail params true;
                 Respond 200 (message ("Email has been sent to " ++ email
                   ++ ". Click on the link to reset password"))])
  end.

(** The callback of [jwt.verify] answers on an error and returns to
    [jwt.verify], not out of the handler: the lookup below runs in
    either case.  The failed save reads the same unbound identifier as
    the [catch] of [forgetPassword]. *)
Definition resetPassword (w : World) (db : User.collection)
    (resetPasswordLink : option string) (newPassword : string)
  : User.collection * list event :=
  if truthy resetPasswordLink then
    let link := match resetPasswordLink with Some s => s | None => "" end in
    let verified :=
      match jwt.verify (jwtlib D) link
              (process.JWT_RESET_PASSWORD (env D)) (now w) with
      | None => [Respond (process.APPLICATION_ERROR_CODE (env D))
                   (error "Token is expired. Try again later.")]
      | Some _ => []
      end in
    match findOne w (User.by_resetPasswordLink link) db with
    | (true, _) | (_, None) =>
        (db, (verified ++
              [Respond (process.APPLICATION_ERROR_CODE (env D))
                 (error "Password reset failed. Try again later.")])%list)
    | (false, Some user) =>
        let user := User.extend user newPassword "" in
        if write_err w then
          (db, (verified ++
                [Persist user false;
                 Throw (ReferenceError "APPLICATION_ERROR_CODE")])%list)
        else
          (User.save user db,
           (verified ++
            [Persist user true;
             Respond 200 (message "Reset password is success.")])%list)
    end
  else (db, []).

(** The token that [forgetPassword] signs for an account at the clock of
    [w]. *)
Definition reset_token (w : World) (user : User.doc) : string :=
  jwt.sign (jwtlib D) (ResetClaims (User.name user))
    (process.JWT_RESET_PASSWORD (env D)) "60m" (now w).

End Controllers.

(** ** A concrete instance

    A small codec with the interface of [jwt], used to run the handlers
    on concrete requests.  A token is [secret|claims|expiry]: it
    verifies under the secret it was signed with before its expiry, and,
    as with the library's default HS256 tokens, signing the same claims
    with the same secret in the same second gives the same token. *)
Module Demo.

Fixpoint split (sep : Ascii.ascii) (s : string) : list string :=
  match s with
  | EmptyString => [""]
  | String c rest =>
      if Ascii.eqb c sep then "" :: split sep rest
      else match split sep rest with
           | [] => [String c ""]
           | h :: t => String c h :: t
           end
  end.

(** The two separators and the escape sign are written as [%2C], [%7C]
    and [%25] inside a claim, so that any string can be carried. *)
Fixpoint escape (s : string) : string :=
  match s with
  | EmptyString => ""
  | String c rest =>
      if Ascii.eqb c "," then "%2C" ++ escape rest
      else if Ascii.eqb c "|" then "%7C" ++ escape rest
      else if Ascii.eqb c "%" then "%25" ++ escape rest
      else String c (escape rest)
  end.

Fixpoint unescape (s : string) : string :=
  match s with
  | EmptyString => ""
  | String c tl =>
      match tl with
      | String a (String b rest) =>
          if Ascii.eqb c "%" then
            if Ascii.eqb a "2" && Ascii.eqb b "C" then String "," (unescape rest)
            else if Ascii.eqb a "7" && Ascii.eqb b "C"
                 then String "|" (unescape rest)
            else if Ascii.eqb a "2" && Ascii.eqb b "5"
                 then String "%" (unescape rest)
            else String c (unescape tl)
          else String c (unescape tl)
      | _ => String c (unescape tl)
      end
  end.

Definition claims_text (p : Payload) : string :=
  match p with
  | ActivationClaims n e pw =>
      "a," ++ escape n ++ "," ++ escape e ++ "," ++ escape pw
  | SessionClaims i => "s," ++ escape i
  | ResetClaims n => "r," ++ escape n
  end.

Definition claims_of_text (t : string) : option Payload :=
  match split ","%char t with
  | ["a"; n; e; pw] =>
      Some (ActivationClaims (unescape n) (unescape e) (unescape pw))
  | ["s"; i] => Some (SessionClaims (unescape i))
  | ["r"; n] => Some (ResetClaims (unescape n))
  | _ => None
  end.

(** Seconds in an [expiresIn] span. *)
Definition ttl (expiresIn : string) : Z :=
  if String.eqb expiresIn "60m" then 3600
  else if String.eqb expiresIn "7d" then 604800
  else if String.eqb expiresIn "10m" then 600
  else 0.

Definition decimal (z : Z) : string :=
  DecimalString.NilZero.string_of_int (Z.to_int z).

Definition of_decimal (s : string) : option Z :=
  option_map Z.of_int (DecimalString.NilZero.int_of_string s).

Definition sign (p : Payload) (secret expiresIn : string) (clock : Z) : string :=
  secret ++ "|" ++ claims_text p ++ "|" ++ decimal (clock + ttl expiresIn).

Definition verify (token secret : string) (clock : Z) : option Payload :=
  match split "|"%char token with
  | [s; text; expiry] =>
      if String.eqb s secret then
        match of_decimal expiry with
        | Some e => if clock <? e then claims_of_text text else None
        | None => None
        end
      else None
  | _ => None
  end.

Definition decode (token : string) : Registration :=
  match split "|"%char token with
  | [_; text; _] =>
      match claims_of_text text with
      | Some (ActivationClaims n e pw) => mkRegistration n e pw
      | _ => mkRegistration "" "" ""
      end
  | _ => mkRegistration "" "" ""
  end.

Definition codec : jwt.codec := jwt.mk sign verify decode.

Definition environment : process.env :=
  process.mkEnv "activation-secret" "session-secret" "reset-secret" "10m" 400.

Definition deps : Deps :=
  mkDeps environment codec
    (fun user password => String.eqb (User.password user) password)
    "admin" "regular".

(** A world in which every collaborator succeeds, at a given second. *)
Definition calm (clock : Z) : World := mkWorld clock false false false "u-1" "id-9".

(** Two accounts that share a display name, and an administrator. *)
Definition al : User.doc :=
  User.mk "id-1" "u-al" "Al" "al@x.com" "p1" "regular" "".
Definition al2 : User.doc :=
  User.mk "id-2" "u-al2" "Al" "al2@x.com" "p2" "regular" "".
Definition root : User.doc :=
  User.mk "id-0" "u-root" "Root" "root@x.com" "p0" "admin" "".

Definition accounts : User.collection := [root; al; al2].

(** Worlds in which the mail service, or the store, refuses. *)
Definition mail_down (clock : Z) : World :=
  mkWorld clock false false true "u-1" "id-9".

(** A run: [al] asks for a reset link at second 100, [al2] asks in the
    same second, and [al] asks again at second 200. *)
Definition first_link : string := reset_token deps (calm 100) al.
Definition second_link : string := reset_token deps (calm 200) al.

Definition issued : User.collection :=
  fst (forgetPassword deps (calm 100) accounts "al@x.com").
Definition shared : User.collection :=
  fst (forgetPassword deps (calm 100) issued "al2@x.com").
Definition reissued : User.collection :=
  fst (forgetPassword deps (calm 200) shared "al@x.com").

(** The same without [al2]: [al] asks at second 100 and at second 200. *)
Definition renewed : User.collection :=
  fst (forgetPassword deps (calm 200) issued "al@x.com").

(** A world in which the lookup calls back with an error. *)
Definition lookup_down (clock : Z) : World :=
  mkWorld clock true false false "u-1" "id-9".

(** The activation token that [register] mails to a newcomer at second
    100, and the account that its activation creates. *)
Definition bo_token : string :=
  sign (ActivationClaims "Bo" "bo@x.com" "pb") "activation-secret" "10m" 100.
Definition bo : User.doc :=
  User.mk "id-9" "u-1" "Bo" "bo@x.com" "pb" "regular" "".

End Demo.

(** ** Observations on collections and traces *)

(** What no handler is meant to touch in a stored account: everything
    but the password and the reset link. *)
Definition identity (u : User.doc)
  : string * string * string * string * string :=
  (User._id u, User.username u, User.name u, User.email u, User.role u).

(** The responses of a trace, in order. *)
Definition responses (t : list event) : list event := filter is_response t.

(** The shapes of the bodies the controllers send. *)
Definition is_error_body (j : json) : bool :=
  match j with JObj [("error", JStr _)] => true | _ => false end.

Definition is_message_body (j : json) : bool :=
  match j with JObj [("message", JStr _)] => true | _ => false end.

Definition is_session_body (j : json) : bool :=
  match j with
  | JObj [("token", JStr _);
          ("user", JObj [("_id", JStr _); ("name", JStr _);
                         ("email", JStr _); ("role", JStr _)])] => true
  | _ => false
  end.

(** A response reports success when its body is a message. *)
Definition reports_success (e : event) : bool :=
  match e with
  | Respond _ body => is_message_body body
  | _ => false
  end.

(** A response is well formed for a configured error code when it is an
    error body under 400, 401, 422 or that code, or a message or
    session body under 200.  Other events pass. *)
Definition well_formed (code : Z) (e : event) : bool :=
  match e with
  | Respond status body =>
      (is_error_body body &&
       ((status =? 400) || (status =? 401) || (status =? 422)
        || (status =? code)))
      || ((status =? 200) && (is_message_body body || is_session_body body))
  | _ => true
  end.

(** * Properties of the handlers *)

Section Properties.

Variable D : Deps.

(** ** Lookups after a write *)

Lemma by_id_refl (u : User.doc) : User.by_id (User._id u) u = true.
Proof. unfold User.by_id. apply String.eqb_refl. Qed.

(** A saved document is what a lookup by its id gives back. *)
Lemma find_saved (u u' : User.doc) (db : User.collection) :
  In u db ->
  User._id u' = User._id u ->
  User.find_first (User.by_id (User._id u)) (User.save u' db) = Some u'.
Proof.
  intros Hin Hid. unfold User.find_first, User.save.
  induction db as [|x rest IH]; [contradiction|].
  cbn [map find]. rewrite Hid.
  destruct (String.eqb (User._id x) (User._id u)) eqn:E.
  - rewrite <- Hid, by_id_refl. reflexivity.
  - unfold User.by_id at 1. rewrite E.
    destruct Hin as [->|Hin].
    + rewrite String.eqb_refl in E. discriminate.
    + rewrite Hid in IH. exact (IH Hin).
Qed.

(** A lookup is not disturbed by a rewrite of the documents that keeps
    what the filter reads. *)
Lemma find_map_stable (q : User.doc -> bool) (f : User.doc -> User.doc)
    (db : User.collection) :
  (forall x, q (f x) = q x) ->
  User.find_first q (map f db) = option_map f (User.find_first q db).
Proof.
  intros Hq. unfold User.find_first.
  induction db as [|x rest IH]; [reflexivity|].
  cbn [map find]. rewrite Hq. destruct (q x); [reflexivity|exact IH].
Qed.

(** No document matches a filter that every document fails. *)
Lemma find_nobody (q : User.doc -> bool) (db : User.collection) :
  (forall x, In x db -> q x = false) -> User.find_first q db = None.
Proof.
  intros H. unfold User.find_first.
  induction db as [|x rest IH]; [reflexivity|].
  cbn [find]. rewrite (H x (or_introl eq_refl)).
  apply IH. intros y Hy. apply H. right. exact Hy.
Qed.

Lemma found_in (w : World) (q : User.doc -> bool) (db : User.collection)
    (u : User.doc) :
  findOne w q db = (false, Some u) -> In u db /\ q u = true.
Proof.
  unfold findOne, User.find_first.
  destruct (findOne_err w); [discriminate|].
  intros H. injection H as H. exact (find_some _ _ H).
Qed.

(** The first match of a lookup splits the collection. *)
Lemma find_first_split (q : User.doc -> bool) (db : User.collection)
    (u : User.doc) :
  User.find_first q db = Some u ->
  exists pre post,
    db = (pre ++ u :: post)%list /\ q u = true /\
    forall x, In x pre -> q x = false.
Proof.
  unfold User.find_first.
  induction db as [|x rest IH]; [discriminate|].
  cbn [find]. destruct (q x) eqn:Hq.
  - intros H. injection H as <-. exists [], rest.
    split; [reflexivity|split; [exact Hq|intros y []]].
  - intros H. destruct (IH H) as [pre [post [-> [Hu Hpre]]]].
    exists (x :: pre), post.
    split; [reflexivity|split; [exact Hu|]].
    intros y [<-|Hy]; [exact Hq|exact (Hpre y Hy)].
Qed.

(** ** resetPassword without a link *)

(** C7: when the resetPasswordLink of the body is absent or empty,
    resetPassword sends no response and leaves the collection as it
    is: it performs no effect at all. *)
Theorem resetPassword_without_link_is_silent :
  forall (w : World) (db : User.collection) (newPassword : string),
    resetPassword D w db None newPassword = (db, []) /\
    resetPassword D w db (Some "") newPassword = (db, []).
Proof. intros w db newPassword. split; reflexivity. Qed.

(** ** registerActivate *)

(** C3: a token that does not verify under the activation secret is
    answered with the error "Expired link. Try again" at the configured
    error code, and no account is created: the collection is unchanged
    and nothing is written. *)
Theorem registerActivate_unverified_token :
  forall (w : World) (db : User.collection) (token : string),
    jwt.verify (jwtlib D) token
      (process.JWT_ACCOUNT_ACTIVATION (env D)) (now w) = None ->
    registerActivate D w db token =
      (db, [Respond (process.APPLICATION_ERROR_CODE (env D))
              (error "Expired link. Try again")]).
Proof.
  intros w db token Hv. unfold registerActivate. rewrite Hv. reflexivity.
Qed.

(** ** login *)

(** C2: when the lookup by email gives a stored account and the
    account's authenticate check fails for the password, login answers
    with the password-mismatch error alone, and no response carries a
    token. *)
Theorem login_wrong_password :
  forall (w : World) (db : User.collection) (email password : string)
         (user : User.doc),
    findOne w (User.by_email email) db = (false, Some user) ->
    authenticate D user password = false ->
    login D w db email password =
      (db, [Respond (process.APPLICATION_ERROR_CODE (env D))
              (error "Password isn't match. Please try again.")]) /\
    existsb carries_token (snd (login D w db email password)) = false.
Proof.
  intros w db email password user Hf Ha.
  unfold login. rewrite Hf, Ha. split; reflexivity.
Qed.

(** C9: a successful login answers once, with status 200 and a body of
    two fields: a token signed over the account's _id with the session
    secret for seven days, and a user object whose keys are exactly
    _id, name, email and role.  The answer is the same for any account
    with these four fields, whatever its password, username and reset
    link are. *)
Theorem login_success_body :
  forall (w : World) (db : User.collection) (email password : string)
         (user : User.doc),
    findOne w (User.by_email email) db = (false, Some user) ->
    authenticate D user password = true ->
    let token :=
      jwt.sign (jwtlib D) (SessionClaims (User._id user))
        (process.JWT_SECRET (env D)) "7d" (now w) in
    let public :=
      JObj [("_id", JStr (User._id user)); ("name", JStr (User.name user));
            ("email", JStr (User.email user)); ("role", JStr (User.role user))] in
    login D w db email password =
      (db, [Respond 200 (JObj [("token", JStr token); ("user", public)])]) /\
    keys public = ["_id"; "name"; "email"; "role"] /\
    (forall (db' : User.collection) (user' : User.doc),
        findOne w (User.by_email email) db' = (false, Some user') ->
        authenticate D user' password = true ->
        User._id user' = User._id user -> User.name user' = User.name user ->
        User.email user' = User.email user -> User.role user' = User.role user ->
        snd (login D w db' email password) = snd (login D w db email password)).
Proof.
  intros w db email password user Hf Ha token public.
  split; [|split].
  - unfold login. rewrite Hf, Ha. reflexivity.
  - reflexivity.
  - intros db' user' Hf' Ha' Hid Hname Hemail Hrole.
    unfold login. rewrite Hf, Ha, Hf', Ha'. cbn [negb snd].
    rewrite Hid, Hname, Hemail, Hrole. reflexivity.
Qed.

(** ** adminMiddleware *)

(** C10: adminMiddleware calls next exactly when the lookup by id gives
    an account whose role is the admin role, and req.profile is then
    that account; when the lookup fails or finds nobody the answer is
    "User is not found", and when the account is not an admin it is
    "Admin resource. Access is denied.", both with the configured error
    code and an error string as body, and without calling next. *)
Theorem adminMiddleware_gate :
  forall (w : World) (db : User.collection) (authAdminId : string),
    let r := adminMiddleware D w db authAdminId in
    (In Next (snd r) <->
     exists user, findOne w (User.by_id authAdminId) db = (false, Some user) /\
                  User.role user = role_admin D /\ fst r = Some user) /\
    (snd (findOne w (User.by_id authAdminId) db) = None ->
     r = (None, [Respond (process.APPLICATION_ERROR_CODE (env D))
                   (error "User is not found")])) /\
    (forall user,
        findOne w (User.by_id authAdminId) db = (false, Some user) ->
        User.role user <> role_admin D ->
        r = (None, [Respond (process.APPLICATION_ERROR_CODE (env D))
                      (error "Admin resource. Access is denied.")])).
Proof.
  intros w db authAdminId r. subst r. unfold adminMiddleware.
  destruct (findOne w (User.by_id authAdminId) db) as [err [user|]] eqn:Hf.
  - assert (err = false) as ->.
    { unfold findOne in Hf. destruct (findOne_err w); [discriminate|].
      injection Hf as <- _. reflexivity. }
    destruct (String.eqb_spec (User.role user) (role_admin D)) as [Hr|Hr];
      cbn [negb fst snd].
    + split; [|split].
      * split; [intros _; exists user; auto | intros _; left; reflexivity].
      * discriminate.
      * intros u Hu Hne. injection Hu as <-. contradiction.
    + split; [|split].
      * split.
        -- intros [H|[]]. discriminate.
        -- intros [u [Hu [Hrole _]]]. injection Hu as <-. contradiction.
      * discriminate.
      * reflexivity.
  - destruct err; cbn [fst snd]; (split; [|split]);
      try reflexivity; try discriminate;
      (split; [intros [H|[]]; discriminate | intros [u [Hu _]]; discriminate]).
Qed.

(** ** resetPassword *)

Lemma truthy_link (link : string) : link <> "" -> truthy (Some link) = true.
Proof.
  intros H. unfold truthy.
  destruct (String.eqb_spec link ""); [contradiction|reflexivity].
Qed.

(** A link that no stored document holds: nothing is written, and the
    handler ends with the error "Password reset failed", after the
    expired-token error when the link does not verify. *)
Lemma resetPassword_miss (w : World) (db : User.collection)
    (link newPassword : string) :
  link <> "" ->
  User.find_first (User.by_resetPasswordLink link) db = None ->
  fst (resetPassword D w db (Some link) newPassword) = db /\
  (jwt.verify (jwtlib D) link
     (process.JWT_RESET_PASSWORD (env D)) (now w) <> None ->
   snd (resetPassword D w db (Some link) newPassword) =
     [Respond (process.APPLICATION_ERROR_CODE (env D))
        (error "Password reset failed. Try again later.")]) /\
  (jwt.verify (jwtlib D) link
     (process.JWT_RESET_PASSWORD (env D)) (now w) = None ->
   snd (resetPassword D w db (Some link) newPassword) =
     [Respond (process.APPLICATION_ERROR_CODE (env D))
        (error "Token is expired. Try again later.");
      Respond (process.APPLICATION_ERROR_CODE (env D))
        (error "Password reset failed. Try again later.")]).
Proof.
  intros Hl Hnone. unfold resetPassword.
  rewrite (truthy_link link Hl). unfold findOne. rewrite Hnone.
  destruct (findOne_err w); cbn [fst snd];
    (split; [reflexivity|split]); intros Hv;
    destruct (jwt.verify _ _ _ _); try reflexivity;
    try discriminate; contradiction.
Qed.

(** Once the document found under a link is saved with the link
    cleared, nobody holds the link, provided no other document did. *)
Lemma link_cleared (db : User.collection) (user : User.doc)
    (link newPassword : string) :
  link <> "" ->
  (forall x, In x db -> User.resetPasswordLink x = link ->
             User._id x = User._id user) ->
  User.find_first (User.by_resetPasswordLink link)
    (User.save (User.extend user newPassword "") db) = None.
Proof.
  intros Hl Honly. apply find_nobody. intros y Hy.
  unfold User.save in Hy. apply in_map_iff in Hy.
  destruct Hy as [x [<- Hx]]. cbn [User.extend User._id].
  unfold User.by_resetPasswordLink.
  destruct (String.eqb_spec (User._id x) (User._id user)) as [E|E].
  - unfold User.extend. cbn [User.resetPasswordLink].
    destruct (String.eqb_spec "" link); [congruence|reflexivity].
  - destruct (String.eqb_spec (User.resetPasswordLink x) link) as [E'|E'];
      [|reflexivity].
    elim E. exact (Honly x Hx E').
Qed.

(** C4: when a non-empty link fails verification under the reset
    secret but is the resetPasswordLink of a stored account, the
    expired-token response does not end the handler: the account is
    looked up and saved with password newPassword and an empty
    resetPasswordLink; when the save goes through, the stored account is
    overwritten and a success message follows the error. *)
Theorem resetPassword_runs_on_after_failed_verify :
  forall (w : World) (db : User.collection) (link newPassword : string)
         (user : User.doc),
    link <> "" ->
    jwt.verify (jwtlib D) link
      (process.JWT_RESET_PASSWORD (env D)) (now w) = None ->
    findOne w (User.by_resetPasswordLink link) db = (false, Some user) ->
    let updated := User.extend user newPassword "" in
    let r := resetPassword D w db (Some link) newPassword in
    (exists last,
        snd r = [Respond (process.APPLICATION_ERROR_CODE (env D))
                   (error "Token is expired. Try again later.");
                 Persist updated (negb (write_err w)); last]) /\
    User.password updated = newPassword /\
    User.resetPasswordLink updated = "" /\
    (write_err w = false ->
     r = (User.save updated db,
          [Respond (process.APPLICATION_ERROR_CODE (env D))
             (error "Token is expired. Try again later.");
           Persist updated true;
           Respond 200 (message "Reset password is success.")]) /\
     User.find_first (User.by_id (User._id user)) (fst r) = Some updated).
Proof.
  intros w db link newPassword user Hl Hv Hf updated r.
  assert (Hr : r = if write_err w
                   then (db, [Respond (process.APPLICATION_ERROR_CODE (env D))
                                (error "Token is expired. Try again later.");
                              Persist updated false;
                              Throw (ReferenceError "APPLICATION_ERROR_CODE")])
                   else (User.save updated db,
                         [Respond (process.APPLICATION_ERROR_CODE (env D))
                            (error "Token is expired. Try again later.");
                          Persist updated true;
                          Respond 200 (message "Reset password is success.")])).
  { subst r updated. unfold resetPassword.
    rewrite (truthy_link link Hl), Hv, Hf.
    destruct (write_err w); reflexivity. }
  split; [|split; [reflexivity|split; [reflexivity|]]].
  - rewrite Hr. destruct (write_err w); eexists; reflexivity.
  - intros Hw. rewrite Hr, Hw. split; [reflexivity|].
    cbn [fst]. apply find_saved; [|reflexivity].
    exact (proj1 (found_in _ _ _ _ Hf)).
Qed.

(** C1, amended: a non-empty link that verifies under the reset secret
    and is the resetPasswordLink of a stored account makes
    resetPassword, when the lookup and the save go through, store the
    first account that holds the link with password newPassword and an
    empty resetPasswordLink, and answer with the success message.  When
    no other account held the same link, a replay of the link changes
    nothing and is answered with "Password reset failed" (after the
    expired-token error if the link no longer verifies). *)
Theorem resetPassword_consumes_link :
  forall (w1 w2 : World) (db : User.collection)
         (link newPassword replayed : string) (user : User.doc),
    link <> "" ->
    jwt.verify (jwtlib D) link
      (process.JWT_RESET_PASSWORD (env D)) (now w1) <> None ->
    findOne w1 (User.by_resetPasswordLink link) db = (false, Some user) ->
    write_err w1 = false ->
    let updated := User.extend user newPassword "" in
    let r1 := resetPassword D w1 db (Some link) newPassword in
    let r2 := resetPassword D w2 (fst r1) (Some link) replayed in
    r1 = (User.save updated db,
          [Persist updated true;
           Respond 200 (message "Reset password is success.")]) /\
    (exists pre post,
        db = (pre ++ user :: post)%list /\
        User.resetPasswordLink user = link /\
        forall x, In x pre -> User.resetPasswordLink x <> link) /\
    User.find_first (User.by_id (User._id user)) (fst r1) = Some updated /\
    User.password updated = newPassword /\
    User.resetPasswordLink updated = "" /\
    ((forall x, In x db -> User.resetPasswordLink x = link ->
                User._id x = User._id user) ->
     fst r2 = fst r1 /\
     (jwt.verify (jwtlib D) link
        (process.JWT_RESET_PASSWORD (env D)) (now w2) <> None ->
      snd r2 = [Respond (process.APPLICATION_ERROR_CODE (env D))
                  (error "Password reset failed. Try again later.")]) /\
     (jwt.verify (jwtlib D) link
        (process.JWT_RESET_PASSWORD (env D)) (now w2) = None ->
      snd r2 = [Respond (process.APPLICATION_ERROR_CODE (env D))
                  (error "Token is expired. Try again later.");
                Respond (process.APPLICATION_ERROR_CODE (env D))
                  (error "Password reset failed. Try again later.")])).
Proof.
  intros w1 w2 db link newPassword replayed user Hl Hv Hf Hw
         updated r1 r2.
  assert (Hr1 : r1 = (User.save updated db,
                      [Persist updated true;
                       Respond 200 (message "Reset password is success.")])).
  { subst r1 updated. unfold resetPassword.
    rewrite (truthy_link link Hl), Hf, Hw.
    destruct (jwt.verify _ _ _ _); [reflexivity|contradiction]. }
  split; [exact Hr1|].
  split.
  { assert (Hfind : User.find_first (User.by_resetPasswordLink link) db
                    = Some user).
    { unfold findOne in Hf. destruct (findOne_err w1); [discriminate|].
      injection Hf as Hf. exact Hf. }
    destruct (find_first_split _ _ _ Hfind) as [pre [post [Hdb [Hu Hpre]]]].
    exists pre, post. split; [exact Hdb|].
    split; [apply String.eqb_eq; exact Hu|].
    intros x Hx. apply String.eqb_neq. exact (Hpre x Hx). }
  split.
  { rewrite Hr1. cbn [fst]. apply find_saved; [|reflexivity].
    exact (proj1 (found_in _ _ _ _ Hf)). }
  split; [reflexivity|split; [reflexivity|]].
  intros Honly. subst r2. rewrite Hr1. cbn [fst].
  apply resetPassword_miss; [exact Hl|].
  apply link_cleared; assumption.
Qed.

(** ** forgetPassword *)

Lemma forgetPassword_stores (w : World) (db : User.collection)
    (email : string) (user : User.doc) :
  findOne w (User.by_email email) db = (false, Some user) ->
  write_err w = false ->
  fst (forgetPassword D w db email) =
    User.updateOne user (User.set_resetPasswordLink (reset_token D w user)) db.
Proof.
  intros Hf Hw. unfold forgetPassword. rewrite Hf, Hw.
  destruct (sendEmail_rejects w); reflexivity.
Qed.

(** Patching the link of an account keeps it where the lookup by email
    finds it. *)
Lemma updateOne_found_by_email (db : User.collection) (email link : string)
    (user : User.doc) :
  User.find_first (User.by_email email) db = Some user ->
  User.find_first (User.by_email email)
    (User.updateOne user (User.set_resetPasswordLink link) db)
  = Some (User.set_resetPasswordLink link user).
Proof.
  intros Hf. unfold User.updateOne.
  rewrite find_map_stable.
  - rewrite Hf. cbn [option_map]. rewrite String.eqb_refl. reflexivity.
  - intros x. destruct (String.eqb (User._id x) (User._id user)); reflexivity.
Qed.

(** When the token is stored and the mail is then rejected, the [catch]
    throws while it evaluates the status: nothing is answered. *)
Lemma forgetPassword_rejected_mail (w : World) (db : User.collection)
    (email : string) (user : User.doc) :
  findOne w (User.by_email email) db = (false, Some user) ->
  write_err w = false ->
  sendEmail_rejects w = true ->
  snd (forgetPassword D w db email) =
    [Persist (User.set_resetPasswordLink (reset_token D w user) user) true;
     SendEmail (emailForgetPasswordParams email (reset_token D w user)) false;
     Throw (ReferenceError "APPLICATION_ERROR_CODE")] /\
  answer (snd (forgetPassword D w db email)) = None.
Proof.
  intros Hf Hw Hs. unfold forgetPassword. rewrite Hf, Hw, Hs.
  split; reflexivity.
Qed.


(** C5, amended: a second forgetPassword for an account, with both
    updates going through, overwrites its resetPasswordLink with the
    new token, so the field holds one token at a time.  When the first
    token is not empty, differs from the second and is held by no other
    account, a later resetPassword with the first token changes nothing
    and is answered with "Password reset failed" (after the
    expired-token error if that token no longer verifies). *)
Theorem forgetPassword_reissue_invalidates :
  forall (w1 w2 w3 : World) (db : User.collection)
         (email newPassword : string) (user : User.doc),
    findOne w1 (User.by_email email) db = (false, Some user) ->
    write_err w1 = false ->
    findOne_err w2 = false ->
    write_err w2 = false ->
    let first := reset_token D w1 user in
    let second := reset_token D w2 user in
    let db1 := fst (forgetPassword D w1 db email) in
    let db2 := fst (forgetPassword D w2 db1 email) in
    let r := resetPassword D w3 db2 (Some first) newPassword in
    User.find_first (User.by_email email) db1
      = Some (User.set_resetPasswordLink first user) /\
    User.find_first (User.by_email email) db2
      = Some (User.set_resetPasswordLink second user) /\
    (forall x, In x db2 -> User._id x = User._id user ->
               User.resetPasswordLink x = second) /\
    (first <> "" ->
     first <> second ->
     (forall x, In x db -> User.resetPasswordLink x = first ->
                User._id x = User._id user) ->
     fst r = db2 /\
     (jwt.verify (jwtlib D) first
        (process.JWT_RESET_PASSWORD (env D)) (now w3) <> None ->
      snd r = [Respond (process.APPLICATION_ERROR_CODE (env D))
                 (error "Password reset failed. Try again later.")]) /\
     (jwt.verify (jwtlib D) first
        (process.JWT_RESET_PASSWORD (env D)) (now w3) = None ->
      snd r = [Respond (process.APPLICATION_ERROR_CODE (env D))
                 (error "Token is expired. Try again later.");
               Respond (process.APPLICATION_ERROR_CODE (env D))
                 (error "Password reset failed. Try again later.")])).
Proof.
  intros w1 w2 w3 db email newPassword user Hf1 Hw1 He2 Hw2
         first second db1 db2 r.
  assert (Hfind : User.find_first (User.by_email email) db = Some user).
  { unfold findOne in Hf1. destruct (findOne_err w1); [discriminate|].
    injection Hf1 as Hf1. exact Hf1. }
  assert (Hdb1 : db1 = User.updateOne user
                         (User.set_resetPasswordLink first) db)
    by (apply forgetPassword_stores; assumption).
  assert (H1 : User.find_first (User.by_email email) db1
               = Some (User.set_resetPasswordLink first user))
    by (rewrite Hdb1; apply updateOne_found_by_email; exact Hfind).
  assert (Hf2 : findOne w2 (User.by_email email) db1
                = (false, Some (User.set_resetPasswordLink first user)))
    by (unfold findOne; rewrite He2, H1; reflexivity).
  assert (Hdb2 : db2 = User.updateOne (User.set_resetPasswordLink first user)
                         (User.set_resetPasswordLink second) db1)
    by (apply (forgetPassword_stores w2 db1 email _ Hf2 Hw2)).
  assert (Hin2 : forall y, In y db2 ->
            exists x, In x db /\
              y = (if String.eqb (User._id x) (User._id user)
                   then User.set_resetPasswordLink second x else x)).
  { intros y Hy. rewrite Hdb2, Hdb1 in Hy. unfold User.updateOne in Hy.
    rewrite map_map in Hy. apply in_map_iff in Hy.
    destruct Hy as [x [<- Hx]]. exists x. split; [exact Hx|].
    cbn [User.set_resetPasswordLink User._id].
    destruct (String.eqb (User._id x) (User._id user)) eqn:E.
    - cbn [User.set_resetPasswordLink User._id]. rewrite E. reflexivity.
    - rewrite E. reflexivity. }
  split; [exact H1|]. split.
  { rewrite Hdb2.
    rewrite (updateOne_found_by_email db1 email second _ H1). reflexivity. }
  split.
  { intros y Hy Hid. destruct (Hin2 y Hy) as [x [_ ->]].
    destruct (String.eqb_spec (User._id x) (User._id user)) as [E|E];
      [reflexivity|contradiction]. }
  intros Hne Hdiff Honly.
  apply resetPassword_miss; [exact Hne|].
  apply find_nobody. intros y Hy.
  destruct (Hin2 y Hy) as [x [Hx ->]].
  unfold User.by_resetPasswordLink.
  destruct (String.eqb_spec (User._id x) (User._id user)) as [E|E].
  - cbn [User.set_resetPasswordLink User.resetPasswordLink].
    destruct (String.eqb_spec second first); [congruence|reflexivity].
  - destruct (String.eqb_spec (User.resetPasswordLink x) first) as [E'|E'];
      [|reflexivity].
    elim E. exact (Honly x Hx E').
Qed.

End Properties.

(** * Runs on the concrete instance *)

(** C8: [al] asks for a reset link, the token is stored and the mail
    service rejects the mail.  The handler has stored the token and
    tried the mail, then throws a ReferenceError; no response is sent. *)
Theorem forgetPassword_mail_failure_unanswered :
  forgetPassword Demo.deps (Demo.mail_down 100) Demo.accounts "al@x.com" =
    (Demo.issued,
     [Persist (User.set_resetPasswordLink Demo.first_link Demo.al) true;
      SendEmail (emailForgetPasswordParams "al@x.com" Demo.first_link) false;
      Throw (ReferenceError "APPLICATION_ERROR_CODE")]) /\
  answer (snd (forgetPassword Demo.deps (Demo.mail_down 100) Demo.accounts
                 "al@x.com")) = None.
Proof. split; reflexivity. Qed.

Lemma registerActivate_unverified_token_witness :
  jwt.verify (jwtlib Demo.deps) "activation-secret|a,Bo,bo@x.com,pb|700"
    (process.JWT_ACCOUNT_ACTIVATION (env Demo.deps)) (now (Demo.calm 701)) = None /\
  registerActivate Demo.deps (Demo.calm 701) Demo.accounts
    "activation-secret|a,Bo,bo@x.com,pb|700" =
    (Demo.accounts, [Respond 400 (error "Expired link. Try again")]).
Proof.
  split; [reflexivity|].
  exact (registerActivate_unverified_token Demo.deps (Demo.calm 701)
           Demo.accounts "activation-secret|a,Bo,bo@x.com,pb|700" eq_refl).
Defined.

Lemma login_wrong_password_witness :
  findOne (Demo.calm 100) (User.by_email "al@x.com") Demo.accounts
    = (false, Some Demo.al) /\
  authenticate Demo.deps Demo.al "guess" = false /\
  login Demo.deps (Demo.calm 100) Demo.accounts "al@x.com" "guess" =
    (Demo.accounts,
     [Respond 400 (error "Password isn't match. Please try again.")]).
Proof.
  split; [reflexivity|split; [reflexivity|]].
  exact (proj1 (login_wrong_password Demo.deps (Demo.calm 100) Demo.accounts
                  "al@x.com" "guess" Demo.al eq_refl eq_refl)).
Defined.

Lemma login_success_body_witness :
  findOne (Demo.calm 100) (User.by_email "al@x.com") Demo.accounts
    = (false, Some Demo.al) /\
  authenticate Demo.deps Demo.al "p1" = true /\
  login Demo.deps (Demo.calm 100) Demo.accounts "al@x.com" "p1" =
    (Demo.accounts,
     [Respond 200
        (JObj [("token", JStr "session-secret|s,id-1|604900");
               ("user", JObj [("_id", JStr "id-1"); ("name", JStr "Al");
                              ("email", JStr "al@x.com");
                              ("role", JStr "regular")])])]).
Proof.
  split; [reflexivity|split; [reflexivity|]].
  exact (proj1 (login_success_body Demo.deps (Demo.calm 100) Demo.accounts
                  "al@x.com" "p1" Demo.al eq_refl eq_refl)).
Defined.

Lemma adminMiddleware_gate_witness :
  In Next (snd (adminMiddleware Demo.deps (Demo.calm 100) Demo.accounts "id-0")) /\
  adminMiddleware Demo.deps (Demo.calm 100) Demo.accounts "id-1" =
    (None, [Respond 400 (error "Admin resource. Access is denied.")]) /\
  adminMiddleware Demo.deps (Demo.calm 100) Demo.accounts "id-7" =
    (None, [Respond 400 (error "User is not found")]).
Proof.
  split; [|split].
  - apply (proj1 (adminMiddleware_gate Demo.deps (Demo.calm 100)
                    Demo.accounts "id-0")).
    exists Demo.root. repeat split.
  - apply (proj2 (proj2 (adminMiddleware_gate Demo.deps (Demo.calm 100)
                           Demo.accounts "id-1")) Demo.al).
    + reflexivity.
    + discriminate.
  - apply (proj1 (proj2 (adminMiddleware_gate Demo.deps (Demo.calm 100)
                           Demo.accounts "id-7"))).
    reflexivity.
Defined.


(** [al]'s link of second 100 is presented at second 5000, when it has
    expired, while [al] still holds it. *)
Lemma resetPassword_runs_on_after_failed_verify_witness :
  Demo.first_link <> "" /\
  jwt.verify (jwtlib Demo.deps) Demo.first_link
    (process.JWT_RESET_PASSWORD (env Demo.deps)) (now (Demo.calm 5000)) = None /\
  findOne (Demo.calm 5000) (User.by_resetPasswordLink Demo.first_link) Demo.issued
    = (false, Some (User.set_resetPasswordLink Demo.first_link Demo.al)) /\
  resetPassword Demo.deps (Demo.calm 5000) Demo.issued (Some Demo.first_link) "n1" =
    (User.save (User.extend Demo.al "n1" "") Demo.issued,
     [Respond 400 (error "Token is expired. Try again later.");
      Persist (User.extend Demo.al "n1" "") true;
      Respond 200 (message "Reset password is success.")]).
Proof.
  assert (H1 : Demo.first_link <> "") by discriminate.
  split; [exact H1|split; [reflexivity|split; [reflexivity|]]].
  exact (proj1 (proj2 (proj2 (proj2
           (resetPassword_runs_on_after_failed_verify Demo.deps (Demo.calm 5000)
              Demo.issued Demo.first_link "n1"
              (User.set_resetPasswordLink Demo.first_link Demo.al)
              H1 eq_refl eq_refl))) eq_refl)).
Defined.

(** [al] holds the link of second 100 alone; it is used at second 200
    and replayed at second 300. *)
Lemma resetPassword_consumes_link_witness :
  (Demo.first_link <> "" /\
   jwt.verify (jwtlib Demo.deps) Demo.first_link
     (process.JWT_RESET_PASSWORD (env Demo.deps)) (now (Demo.calm 200)) <> None /\
   findOne (Demo.calm 200) (User.by_resetPasswordLink Demo.first_link) Demo.issued
     = (false, Some (User.set_resetPasswordLink Demo.first_link Demo.al)) /\
   write_err (Demo.calm 200) = false /\
   (forall x, In x Demo.issued -> User.resetPasswordLink x = Demo.first_link ->
              User._id x = "id-1")) /\
  resetPassword Demo.deps (Demo.calm 200) Demo.issued (Some Demo.first_link) "n1" =
    (User.save (User.extend Demo.al "n1" "") Demo.issued,
     [Persist (User.extend Demo.al "n1" "") true;
      Respond 200 (message "Reset password is success.")]) /\
  snd (resetPassword Demo.deps (Demo.calm 300)
         (fst (resetPassword Demo.deps (Demo.calm 200) Demo.issued
                 (Some Demo.first_link) "n1"))
         (Some Demo.first_link) "n2") =
    [Respond 400 (error "Password reset failed. Try again later.")].
Proof.
  assert (H1 : Demo.first_link <> "") by discriminate.
  assert (H2 : jwt.verify (jwtlib Demo.deps) Demo.first_link
                 (process.JWT_RESET_PASSWORD (env Demo.deps))
                 (now (Demo.calm 200)) <> None) by discriminate.
  assert (H3 : forall x, In x Demo.issued ->
                 User.resetPasswordLink x = Demo.first_link ->
                 User._id x = "id-1").
  { intros x [<-|[<-|[<-|[]]]] H; try reflexivity; discriminate H. }
  pose proof (resetPassword_consumes_link Demo.deps (Demo.calm 200)
                (Demo.calm 300) Demo.issued Demo.first_link "n1" "n2"
                (User.set_resetPasswordLink Demo.first_link Demo.al)
                H1 H2 eq_refl eq_refl) as T.
  cbv zeta in T.
  destruct T as [T1 [_ [_ [_ [_ T2]]]]].
  destruct (T2 H3) as [_ [T3 _]].
  split; [repeat split; assumption|].
  split; [exact T1|].
  apply T3. discriminate.
Defined.

(** Two accounts that hold the same link.  [al] and [al2] share a name
    and asked for a link in the same second, so both hold [first_link]:
    the first resetPassword consumes it for [al], and the replay is not
    answered with "Password reset failed": it finds [al2], overwrites
    its password and answers with the success message. *)
Lemma resetPassword_replay_succeeds_on_shared_link :
  Demo.first_link <> "" /\
  Demo.shared =
    [Demo.root; User.set_resetPasswordLink Demo.first_link Demo.al;
     User.set_resetPasswordLink Demo.first_link Demo.al2] /\
  jwt.verify (jwtlib Demo.deps) Demo.first_link
    (process.JWT_RESET_PASSWORD (env Demo.deps)) (now (Demo.calm 200))
    = Some (ResetClaims "Al") /\
  findOne (Demo.calm 200) (User.by_resetPasswordLink Demo.first_link) Demo.shared
    = (false, Some (User.set_resetPasswordLink Demo.first_link Demo.al)) /\
  resetPassword Demo.deps (Demo.calm 200) Demo.shared (Some Demo.first_link) "n1" =
    ([Demo.root; User.extend Demo.al "n1" "";
      User.set_resetPasswordLink Demo.first_link Demo.al2],
     [Persist (User.extend Demo.al "n1" "") true;
      Respond 200 (message "Reset password is success.")]) /\
  resetPassword Demo.deps (Demo.calm 300)
    (fst (resetPassword Demo.deps (Demo.calm 200) Demo.shared
            (Some Demo.first_link) "n1"))
    (Some Demo.first_link) "n2" =
    ([Demo.root; User.extend Demo.al "n1" ""; User.extend Demo.al2 "n2" ""],
     [Persist (User.extend Demo.al2 "n2" "") true;
      Respond 200 (message "Reset password is success.")]).
Proof.
  split; [discriminate|]. repeat split.
Qed.

(** [al] asks for a link at second 100 and again at second 200; the
    first link is presented at second 300. *)
Lemma forgetPassword_reissue_invalidates_witness :
  (findOne (Demo.calm 100) (User.by_email "al@x.com") Demo.accounts
     = (false, Some Demo.al) /\
   write_err (Demo.calm 100) = false /\
   findOne_err (Demo.calm 200) = false /\
   write_err (Demo.calm 200) = false /\
   reset_token Demo.deps (Demo.calm 100) Demo.al <> "" /\
   reset_token Demo.deps (Demo.calm 100) Demo.al
     <> reset_token Demo.deps (Demo.calm 200) Demo.al /\
   (forall x, In x Demo.accounts ->
      User.resetPasswordLink x = reset_token Demo.deps (Demo.calm 100) Demo.al ->
      User._id x = "id-1")) /\
  User.find_first (User.by_email "al@x.com") Demo.renewed
    = Some (User.set_resetPasswordLink Demo.second_link Demo.al) /\
  fst (resetPassword Demo.deps (Demo.calm 300) Demo.renewed
         (Some Demo.first_link) "n1") = Demo.renewed /\
  snd (resetPassword Demo.deps (Demo.calm 300) Demo.renewed
         (Some Demo.first_link) "n1") =
    [Respond 400 (error "Password reset failed. Try again later.")].
Proof.
  assert (H1 : reset_token Demo.deps (Demo.calm 100) Demo.al <> "")
    by discriminate.
  assert (H2 : reset_token Demo.deps (Demo.calm 100) Demo.al
               <> reset_token Demo.deps (Demo.calm 200) Demo.al)
    by discriminate.
  assert (H3 : forall x, In x Demo.accounts ->
                 User.resetPasswordLink x
                   = reset_token Demo.deps (Demo.calm 100) Demo.al ->
                 User._id x = "id-1").
  { intros x [<-|[<-|[<-|[]]]] H; try reflexivity; discriminate H. }
  pose proof (forgetPassword_reissue_invalidates Demo.deps (Demo.calm 100)
                (Demo.calm 200) (Demo.calm 300) Demo.accounts "al@x.com" "n1"
                Demo.al eq_refl eq_refl eq_refl eq_refl) as T.
  cbv zeta in T.
  destruct T as [_ [T1 [_ T4]]].
  destruct (T4 H1 H2 H3) as [T2 [T3 _]].
  split; [repeat split; assumption|].
  split; [exact T1|].
  split; [exact T2|].
  apply T3. discriminate.
Defined.

(** A stale link that another account holds.  [al] and [al2] share a
    name and asked for a link in the same second 100; [al] asks again at
    second 200 and its field is overwritten by the second link.  The
    first link, presented at second 300, is not answered with "Password
    reset failed": it finds [al2] and overwrites that account's
    password. *)
Lemma stale_link_resets_another_account :
  Demo.first_link <> Demo.second_link /\
  Demo.shared =
    [Demo.root; User.set_resetPasswordLink Demo.first_link Demo.al;
     User.set_resetPasswordLink Demo.first_link Demo.al2] /\
  forgetPassword Demo.deps (Demo.calm 200) Demo.shared "al@x.com" =
    (Demo.reissued,
     [Persist (User.set_resetPasswordLink Demo.second_link Demo.al) true;
      SendEmail (emailForgetPasswordParams "al@x.com" Demo.second_link) true;
      Respond 200 (message
        "Email has been sent to al@x.com. Click on the link to reset password")]) /\
  Demo.reissued =
    [Demo.root; User.set_resetPasswordLink Demo.second_link Demo.al;
     User.set_resetPasswordLink Demo.first_link Demo.al2] /\
  resetPassword Demo.deps (Demo.calm 300) Demo.reissued
    (Some Demo.first_link) "n1" =
    ([Demo.root; User.set_resetPasswordLink Demo.second_link Demo.al;
      User.extend Demo.al2 "n1" ""],
     [Persist (User.extend Demo.al2 "n1" "") true;
      Respond 200 (message "Reset password is success.")]).
Proof.
  split; [discriminate|]. repeat split.
Qed.

(** * Further properties of the handlers *)

Section Coverage.

Variable D : Deps.

(** A lookup that calls back with an error hands over no document. *)
Lemma findOne_err_finds_nobody (w : World) (q : User.doc -> bool)
    (db : User.collection) (u : User.doc) :
  findOne w q db <> (true, Some u).
Proof. unfold findOne. destruct (findOne_err w); discriminate. Qed.

(** ** login *)

(** X1: the answer of login carries a token exactly when the lookup by
    email yields an account and that account's authenticate check
    accepts the password; in every other run the single response is an
    error under the configured code.  The collection is never changed. *)
Theorem login_issues_token_iff :
  forall (w : World) (db : User.collection) (email password : string),
    let r := login D w db email password in
    (existsb carries_token (snd r) = true <->
     exists user, findOne w (User.by_email email) db = (false, Some user) /\
                  authenticate D user password = true) /\
    (existsb carries_token (snd r) = false ->
     exists msg, snd r = [Respond (process.APPLICATION_ERROR_CODE (env D))
                            (error msg)]) /\
    fst r = db.
Proof.
  intros w db email password r. subst r. unfold login.
  destruct (findOne w (User.by_email email) db) as [[|] [user|]] eqn:Hf;
    try (split; [split; [discriminate | intros [u [Hu _]]; discriminate]
                | split; [intros _; eexists; reflexivity | reflexivity]]).
  destruct (authenticate D user password) eqn:Ha; cbn [negb fst snd].
  - split; [split; [intros _; exists user; auto | reflexivity]|].
    split; [discriminate | reflexivity].
  - split; [split; [discriminate|]|].
    + intros [u [Hu Hau]]. injection Hu as <-. congruence.
    + split; [intros _; eexists; reflexivity | reflexivity].
Qed.

(** ** How often a request is answered *)

(** X2: registerActivate and login answer every request exactly once,
    whatever the collection holds and whatever the store and the token
    codec answer. *)
Theorem handlers_answer_once :
  forall (w : World) (db : User.collection) (email password token : string),
    length (responses (snd (registerActivate D w db token))) = 1%nat /\
    length (responses (snd (login D w db email password))) = 1%nat.
Proof.
  intros w db email password token. split.
  - unfold registerActivate.
    destruct (jwt.verify _ _ _ _); [|reflexivity].
    destruct (snd (findOne w _ db)); [reflexivity|].
    destruct (write_err w); reflexivity.
  - unfold login.
    destruct (findOne w (User.by_email email) db) as [[|] [user|]];
      try reflexivity.
    destruct (authenticate D user password); reflexivity.
Qed.

(** X11: resetPassword with a link in the body leaves the request
    without any response exactly when the link is empty, or when it
    verifies, an account holding it is found and the save fails; a
    failed save never changes the collection. *)
Theorem resetPassword_unanswered_iff :
  forall (w : World) (db : User.collection) (link newPassword : string),
    let r := resetPassword D w db (Some link) newPassword in
    (answer (snd r) = None <->
     link = "" \/
     (jwt.verify (jwtlib D) link
        (process.JWT_RESET_PASSWORD (env D)) (now w) <> None /\
      (exists user,
          findOne w (User.by_resetPasswordLink link) db = (false, Some user)) /\
      write_err w = true)) /\
    (write_err w = true -> fst r = db).
Proof.
  intros w db link newPassword r. subst r. unfold resetPassword, truthy.
  destruct (String.eqb_spec link "") as [E|E]; cbn [negb].
  { split; [split; [intros _; left; exact E | reflexivity] | reflexivity]. }
  destruct (findOne w (User.by_resetPasswordLink link) db)
    as [[|] [user|]] eqn:Hf;
    destruct (jwt.verify (jwtlib D) link _ (now w)) eqn:Hv;
    try (split; [split; [discriminate
                        | intros [H|[_ [[u Hu] _]]];
                          [contradiction | discriminate]]
                | reflexivity]).
  - destruct (write_err w) eqn:Hw; cbn.
    + split; [split; [intros _; right|reflexivity]|reflexivity].
      split; [discriminate | split; [exists user; reflexivity | reflexivity]].
    + split; [split; [discriminate|]|discriminate].
      intros [H|[_ [_ H]]]; [contradiction | discriminate].
  - destruct (write_err w) eqn:Hw; cbn.
    + split; [split; [discriminate|]|reflexivity].
      intros [H|[H _]]; [contradiction | elim H; reflexivity].
    + split; [split; [discriminate|]|discriminate].
      intros [H|[_ [_ H]]]; [contradiction | discriminate].
Qed.

(** X12: resetPassword never makes more than two responses, and it
    makes two exactly when the link is not empty, fails verification,
    and the handler then either finds no account or saves one: the
    expired-token response has already been sent when the outcome of
    the lookup is answered. *)
Theorem resetPassword_answers_twice_iff :
  forall (w : World) (db : User.collection) (link newPassword : string),
    let r := resetPassword D w db (Some link) newPassword in
    (length (responses (snd r)) <= 2)%nat /\
    (length (responses (snd r)) = 2%nat <->
     link <> "" /\
     jwt.verify (jwtlib D) link
       (process.JWT_RESET_PASSWORD (env D)) (now w) = None /\
     (snd (findOne w (User.by_resetPasswordLink link) db) = None \/
      write_err w = false)).
Proof.
  intros w db link newPassword r. subst r. unfold resetPassword, truthy.
  destruct (String.eqb_spec link "") as [E|E]; cbn [negb].
  { split; [cbn; repeat constructor|].
    split; [discriminate | intros [H _]; contradiction]. }
  destruct (findOne w (User.by_resetPasswordLink link) db)
    as [[|] [user|]] eqn:Hf;
    [exfalso; exact (findOne_err_finds_nobody _ _ _ _ Hf)|..];
    destruct (jwt.verify (jwtlib D) link _ (now w)) eqn:Hv;
    try destruct (write_err w) eqn:Hw; cbn;
    (split; [repeat constructor|]);
    (split; [try discriminate; intros _; repeat split; auto
            | try reflexivity;
              intros [_ [H1 H2]]; try discriminate;
              destruct H2 as [H2|H2]; discriminate]).
Qed.

(** ** The account gate *)

(** X3: when the lookup by id yields an account, authMiddleware sets
    req.profile to it and calls next, answering nothing; the account is
    stored and has the requested id.  When the lookup fails or finds
    nobody it answers "User is not found" under the configured error
    code, sets no profile and does not call next.  So next is called
    exactly when the lookup yields an account. *)
Theorem authMiddleware_gate :
  forall (w : World) (db : User.collection) (authUserId : string),
    let r := authMiddleware D w db authUserId in
    (forall user,
        findOne w (User.by_id authUserId) db = (false, Some user) ->
        r = (Some user, [Next]) /\
        In user db /\ User._id user = authUserId) /\
    (snd (findOne w (User.by_id authUserId) db) = None ->
     r = (None, [Respond (process.APPLICATION_ERROR_CODE (env D))
                   (error "User is not found")])) /\
    (In Next (snd r) <->
     exists user, findOne w (User.by_id authUserId) db = (false, Some user)).
Proof.
  intros w db authUserId r. subst r. unfold authMiddleware.
  destruct (findOne w (User.by_id authUserId) db) as [[|] [user|]] eqn:Hf;
    [exfalso; exact (findOne_err_finds_nobody _ _ _ _ Hf)|..];
    cbn [fst snd].
  - split; [discriminate|split; [reflexivity|]].
    split; [intros [H|[]]; discriminate | intros [u Hu]; discriminate].
  - split; [|split; [discriminate|]].
    + intros u Hu. injection Hu as <-.
      destruct (found_in _ _ _ _ Hf) as [Hin Hq].
      split; [reflexivity|split; [exact Hin|]].
      unfold User.by_id in Hq. apply String.eqb_eq. exact Hq.
    + split; [intros _; exists user; reflexivity | intros _; left; reflexivity].
  - split; [discriminate|split; [reflexivity|]].
    split; [intros [H|[]]; discriminate | intros [u Hu]; discriminate].
Qed.

(** X4: on an account with the admin role both middlewares attach it
    and call next; on an account with another role authMiddleware
    attaches it and calls next while adminMiddleware refuses with
    "Admin resource. Access is denied." and attaches nothing; when the
    lookup fails or finds nobody both answer "User is not found". *)
Theorem adminMiddleware_narrows_authMiddleware :
  forall (w : World) (db : User.collection) (id : string),
    (forall user,
        findOne w (User.by_id id) db = (false, Some user) ->
        User.role user = role_admin D ->
        authMiddleware D w db id = (Some user, [Next]) /\
        adminMiddleware D w db id = (Some user, [Next])) /\
    (forall user,
        findOne w (User.by_id id) db = (false, Some user) ->
        User.role user <> role_admin D ->
        authMiddleware D w db id = (Some user, [Next]) /\
        adminMiddleware D w db id =
          (None, [Respond (process.APPLICATION_ERROR_CODE (env D))
                    (error "Admin resource. Access is denied.")])) /\
    (snd (findOne w (User.by_id id) db) = None ->
     authMiddleware D w db id =
       (None, [Respond (process.APPLICATION_ERROR_CODE (env D))
                 (error "User is not found")]) /\
     adminMiddleware D w db id =
       (None, [Respond (process.APPLICATION_ERROR_CODE (env D))
                 (error "User is not found")])).
Proof.
  intros w db id. unfold adminMiddleware, authMiddleware.
  destruct (findOne w (User.by_id id) db) as [[|] [user|]] eqn:Hf;
    [exfalso; exact (findOne_err_finds_nobody _ _ _ _ Hf)|..];
    cbn [snd].
  - split; [discriminate|split; [discriminate|]].
    intros _. split; reflexivity.
  - split; [|split; [|discriminate]].
    + intros u Hu Hrole. injection Hu as <-.
      rewrite Hrole, String.eqb_refl. split; reflexivity.
    + intros u Hu Hrole. injection Hu as <-.
      destruct (String.eqb_spec (User.role user) (role_admin D));
        [contradiction|]. split; reflexivity.
  - split; [discriminate|split; [discriminate|]].
    intros _. split; reflexivity.
Qed.

(** ** What the handlers leave alone *)

(** X5: forgetPassword changes nothing in the collection but reset
    links: with the links blanked, the collection afterwards is the
    collection before.  When the lookup yields an account, the accounts
    with another id keep their link as well, and when it yields none
    the collection is unchanged. *)
Theorem forgetPassword_only_sets_links :
  forall (w : World) (db : User.collection) (email : string),
    let r := forgetPassword D w db email in
    map (User.set_resetPasswordLink "") (fst r)
      = map (User.set_resetPasswordLink "") db /\
    (forall user n x,
        findOne w (User.by_email email) db = (false, Some user) ->
        nth_error db n = Some x ->
        User._id x <> User._id user ->
        nth_error (fst r) n = Some x) /\
    (snd (findOne w (User.by_email email) db) = None -> fst r = db).
Proof.
  intros w db email r. subst r. unfold forgetPassword.
  destruct (findOne w (User.by_email email) db) as [[|] [user|]] eqn:Hf;
    [exfalso; exact (findOne_err_finds_nobody _ _ _ _ Hf)|..];
    try (split; [reflexivity|split; [discriminate|reflexivity]]).
  destruct (write_err w);
    [split; [reflexivity|split; [intros; assumption|discriminate]]|].
  assert (Hfst : forall t1 t2 : list event,
             fst (if sendEmail_rejects w
                  then (User.updateOne user
                          (User.set_resetPasswordLink (reset_token D w user)) db,
                        t1)
                  else (User.updateOne user
                          (User.set_resetPasswordLink (reset_token D w user)) db,
                        t2))
             = User.updateOne user
                 (User.set_resetPasswordLink (reset_token D w user)) db)
    by (intros; destruct (sendEmail_rejects w); reflexivity).
  unfold reset_token in Hfst. rewrite Hfst.
  split; [|split; [|discriminate]].
  - unfold User.updateOne. rewrite map_map. apply map_ext. intros x.
    destruct (String.eqb (User._id x) (User._id user)); reflexivity.
  - intros u n x Hu Hn Hid. injection Hu as <-.
    unfold User.updateOne. rewrite nth_error_map, Hn. cbn [option_map].
    destruct (String.eqb_spec (User._id x) (User._id user));
      [contradiction|reflexivity].
Qed.

(** With ids that identify, a save rewrites one place. *)
Lemma save_one_place (pre post : User.collection) (u u' : User.doc) :
  NoDup (map User._id (pre ++ u :: post)%list) ->
  User._id u' = User._id u ->
  User.save u' (pre ++ u :: post)%list = (pre ++ u' :: post)%list.
Proof.
  intros Hnd Hid.
  assert (Hother : forall x, In x (pre ++ post)%list ->
                     String.eqb (User._id x) (User._id u') = false).
  { intros x Hx. apply String.eqb_neq. rewrite Hid. intros E.
    rewrite map_app in Hnd. cbn [map] in Hnd.
    apply NoDup_remove_2 in Hnd. apply Hnd.
    rewrite <- map_app, <- E. apply in_map. exact Hx. }
  unfold User.save. rewrite map_app. cbn [map].
  replace (String.eqb (User._id u) (User._id u')) with true
    by (rewrite Hid; symmetry; apply String.eqb_refl).
  f_equal; [|f_equal].
  - rewrite <- (map_id pre) at 2. apply map_ext_in. intros x Hx.
    rewrite (Hother x); [reflexivity|]. apply in_or_app. left. exact Hx.
  - rewrite <- (map_id post) at 2. apply map_ext_in. intros x Hx.
    rewrite (Hother x); [reflexivity|]. apply in_or_app. right. exact Hx.
Qed.

(** X6: when the ids of the collection are distinct, resetPassword
    either leaves the collection as it is or rewrites one account, the
    first that holds the link: that account gets the new password and
    an empty link, keeps its id, username, name, email and role, and
    every other account is untouched. *)
Theorem resetPassword_changes_one_account :
  forall (w : World) (db : User.collection) (link : option string)
         (newPassword : string),
    NoDup (map User._id db) ->
    let r := resetPassword D w db link newPassword in
    fst r = db \/
    exists pre user post l,
      link = Some l /\ l <> "" /\
      db = (pre ++ user :: post)%list /\
      fst r = (pre ++ User.extend user newPassword "" :: post)%list /\
      User.resetPasswordLink user = l /\
      (forall x, In x pre -> User.resetPasswordLink x <> l) /\
      identity (User.extend user newPassword "") = identity user.
Proof.
  intros w db link newPassword Hnd r. subst r. unfold resetPassword.
  destruct link as [l|]; [|left; reflexivity].
  unfold truthy. destruct (String.eqb_spec l "") as [E|E]; cbn [negb];
    [left; reflexivity|].
  destruct (findOne w (User.by_resetPasswordLink l) db)
    as [[|] [user|]] eqn:Hf; try (left; reflexivity).
  destruct (write_err w); [left; reflexivity|].
  right. cbn [fst].
  assert (Hfind : User.find_first (User.by_resetPasswordLink l) db = Some user).
  { unfold findOne in Hf. destruct (findOne_err w); [discriminate|].
    injection Hf as Hf. exact Hf. }
  destruct (find_first_split _ _ _ Hfind) as [pre [post [-> [Hu Hpre]]]].
  exists pre, user, post, l.
  split; [reflexivity|split; [exact E|split; [reflexivity|]]].
  split; [apply save_one_place; [exact Hnd|reflexivity]|].
  split; [apply String.eqb_eq; exact Hu|].
  split; [|reflexivity].
  intros x Hx. apply String.eqb_neq. exact (Hpre x Hx).
Qed.



(** A lookup gives the first document that passes, after any number of
    documents that do not. *)
Lemma find_after_misses (q : User.doc -> bool) (pre post : User.collection)
    (u : User.doc) :
  (forall x, In x pre -> q x = false) ->
  q u = true ->
  User.find_first q (pre ++ u :: post)%list = Some u.
Proof.
  intros Hpre Hu. unfold User.find_first.
  induction pre as [|x pre IH]; cbn [app find].
  - rewrite Hu. reflexivity.
  - rewrite (Hpre x (or_introl eq_refl)).
    apply IH. intros y Hy. apply Hpre. right. exact Hy.
Qed.

Lemma updateOne_one_place (pre post : User.collection) (u : User.doc)
    (patch : User.doc -> User.doc) :
  NoDup (map User._id (pre ++ u :: post)%list) ->
  User.updateOne u patch (pre ++ u :: post)%list
    = (pre ++ patch u :: post)%list.
Proof.
  intros Hnd.
  assert (Hother : forall x, In x (pre ++ post)%list ->
                     String.eqb (User._id x) (User._id u) = false).
  { intros x Hx. apply String.eqb_neq. intros E.
    rewrite map_app in Hnd. cbn [map] in Hnd.
    apply NoDup_remove_2 in Hnd. apply Hnd.
    rewrite <- map_app, <- E. apply in_map. exact Hx. }
  unfold User.updateOne. rewrite map_app. cbn [map].
  rewrite String.eqb_refl.
  f_equal; [|f_equal].
  - rewrite <- (map_id pre) at 2. apply map_ext_in. intros x Hx.
    rewrite (Hother x); [reflexivity|]. apply in_or_app. left. exact Hx.
  - rewrite <- (map_id post) at 2. apply map_ext_in. intros x Hx.
    rewrite (Hother x); [reflexivity|]. apply in_or_app. right. exact Hx.
Qed.

(** ** From a mail to an account *)

(** X8: the token that register mails for an email nobody has is what
    registerActivate needs: when it verifies and decodes to the
    registered fields and the store takes the write, the account is
    appended with these fields, the default role and no reset link, and
    is found under its email; register itself stores nothing.  A replay
    of the token changes nothing, and while the token still verifies it
    is answered with 401 "Email is already taken". *)
Theorem register_then_activate :
  forall (w1 w2 w3 : World) (db : User.collection)
         (name email password : string),
    let secret := process.JWT_ACCOUNT_ACTIVATION (env D) in
    let token :=
      jwt.sign (jwtlib D) (ActivationClaims name email password) secret
        (process.JWT_EXPIRED (env D)) (now w1) in
    User.find_first (User.by_email email) db = None ->
    jwt.verify (jwtlib D) token secret (now w2) <> None ->
    jwt.decode (jwtlib D) token = mkRegistration name email password ->
    findOne_err w2 = false ->
    write_err w2 = false ->
    findOne_err w3 = false ->
    let account := new_User D w2 (shortId_generate w2) name email password in
    let r1 := register D w1 db name email password in
    let r2 := registerActivate D w2 db token in
    let r3 := registerActivate D w3 (fst r2) token in
    fst r1 = db /\
    In (SendEmail (emailVerificationParams email token)
          (negb (sendEmail_rejects w1))) (snd r1) /\
    r2 = (User.insert account db,
          [Persist account true;
           Respond 200 (message "Registration success. Please login.")]) /\
    User.find_first (User.by_email email) (fst r2) = Some account /\
    fst r3 = fst r2 /\
    (jwt.verify (jwtlib D) token secret (now w3) <> None ->
     snd r3 = [Respond 401 (error "Email is already taken")]).
Proof.
  intros w1 w2 w3 db name email password secret token
         Hfree Hv Hdec He2 Hw2 He3 account r1 r2 r3.
  assert (Hr1 : r1 = if sendEmail_rejects w1
                     then (db, [SendEmail (emailVerificationParams email token)
                                  false;
                                Respond 422
                                  (error ("We could not verify your email "
                                          ++ email ++ ". Please try again"))])
                     else (db, [SendEmail (emailVerificationParams email token)
                                  true;
                                Respond 200
                                  (message ("Email has been sent to " ++ email
                ++ ". Follow the instructions to complete your registration"))])).
  { subst r1. unfold register, findOne. rewrite Hfree.
    destruct (findOne_err w1); reflexivity. }
  assert (Hr2 : r2 = (User.insert account db,
                      [Persist account true;
                       Respond 200
                         (message "Registration success. Please login.")])).
  { subst r2 account. unfold registerActivate. fold secret.
    destruct (jwt.verify (jwtlib D) token secret (now w2));
      [|contradiction].
    rewrite Hdec. cbn [reg_email reg_name reg_password].
    unfold findOne. rewrite He2, Hfree, Hw2. reflexivity. }
  assert (Hfound : User.find_first (User.by_email email)
                     (User.insert account db) = Some account).
  { unfold User.insert. apply find_after_misses.
    - intros x Hx. exact (find_none _ _ Hfree x Hx).
    - unfold User.by_email, account, new_User. cbn [User.email].
      apply String.eqb_refl. }
  split; [rewrite Hr1; destruct (sendEmail_rejects w1); reflexivity|].
  split; [rewrite Hr1; destruct (sendEmail_rejects w1); left; reflexivity|].
  split; [exact Hr2|].
  split; [rewrite Hr2; exact Hfound|].
  subst r3. rewrite Hr2. cbn [fst]. unfold registerActivate. fold secret.
  destruct (jwt.verify (jwtlib D) token secret (now w3));
    [|split; [reflexivity|intros H; elim H; reflexivity]].
  rewrite Hdec. cbn [reg_email]. unfold findOne. rewrite He3, Hfound.
  split; [reflexivity|intros _; reflexivity].
Qed.

(** X9: when the default role is not the admin role, an account that
    registerActivate has just created under a fresh id passes
    authMiddleware, with itself as req.profile, and is refused by
    adminMiddleware with "Admin resource. Access is denied.". *)
Theorem activated_account_is_not_admin :
  forall (w w' : World) (db : User.collection) (token : string),
    jwt.verify (jwtlib D) token
      (process.JWT_ACCOUNT_ACTIVATION (env D)) (now w) <> None ->
    snd (findOne w
           (User.by_email (reg_email (jwt.decode (jwtlib D) token))) db)
      = None ->
    write_err w = false ->
    (forall x, In x db -> User._id x <> new_ObjectId w) ->
    role_default D <> role_admin D ->
    findOne_err w' = false ->
    let decoded := jwt.decode (jwtlib D) token in
    let account :=
      new_User D w (shortId_generate w) (reg_name decoded)
        (reg_email decoded) (reg_password decoded) in
    let db' := fst (registerActivate D w db token) in
    db' = User.insert account db /\
    authMiddleware D w' db' (new_ObjectId w) = (Some account, [Next]) /\
    adminMiddleware D w' db' (new_ObjectId w) =
      (None, [Respond (process.APPLICATION_ERROR_CODE (env D))
                (error "Admin resource. Access is denied.")]).
Proof.
  intros w w' db token Hv Hfree Hw Hfresh Hrole He' decoded account db'.
  assert (Hdb : db' = User.insert account db).
  { subst db' account decoded. unfold registerActivate.
    destruct (jwt.verify _ _ _ _); [|contradiction].
    rewrite Hfree, Hw. reflexivity. }
  assert (Hfound : User.find_first (User.by_id (new_ObjectId w))
                     (User.insert account db) = Some account).
  { unfold User.insert. apply find_after_misses.
    - intros x Hx. apply String.eqb_neq. exact (Hfresh x Hx).
    - apply String.eqb_refl. }
  split; [exact Hdb|]. rewrite Hdb.
  unfold authMiddleware, adminMiddleware, findOne. rewrite He', Hfound.
  split; [reflexivity|].
  replace (User.role account) with (role_default D) by reflexivity.
  destruct (String.eqb_spec (role_default D) (role_admin D));
    [contradiction|reflexivity].
Qed.

(** X13: the link that forgetPassword stores and mails is what
    resetPassword needs.  With distinct ids, a token that is not empty,
    that no other account holds and that still verifies, and a store
    that takes both writes, resetPassword with the mailed token is
    answered once, with the success message; the account is then found
    under its email with the new password and an empty link, and no
    account has changed its id, username, name, email or role. *)
Theorem forgetPassword_then_resetPassword :
  forall (w1 w2 : World) (db : User.collection)
         (email newPassword : string) (user : User.doc),
    NoDup (map User._id db) ->
    findOne w1 (User.by_email email) db = (false, Some user) ->
    write_err w1 = false ->
    let token := reset_token D w1 user in
    token <> "" ->
    (forall x, In x db -> User.resetPasswordLink x = token ->
               User._id x = User._id user) ->
    jwt.verify (jwtlib D) token
      (process.JWT_RESET_PASSWORD (env D)) (now w2) <> None ->
    findOne_err w2 = false ->
    write_err w2 = false ->
    let r1 := forgetPassword D w1 db email in
    let r2 := resetPassword D w2 (fst r1) (Some token) newPassword in
    In (SendEmail (emailForgetPasswordParams email token)
          (negb (sendEmail_rejects w1))) (snd r1) /\
    snd r2 = [Persist (User.extend user newPassword "") true;
              Respond 200 (message "Reset password is success.")] /\
    User.find_first (User.by_email email) (fst r2)
      = Some (User.extend user newPassword "") /\
    map identity (fst r2) = map identity db.
Proof.
  intros w1 w2 db email newPassword user Hnd Hf1 Hw1 token Hne Honly
         Hv He2 Hw2 r1 r2.
  assert (Hfind : User.find_first (User.by_email email) db = Some user).
  { unfold findOne in Hf1. destruct (findOne_err w1); [discriminate|].
    injection Hf1 as Hf1. exact Hf1. }
  destruct (find_first_split _ _ _ Hfind) as [pre [post [Hdb [Hu Hpre]]]].
  subst db.
  assert (Hids : forall x, In x pre -> User._id x <> User._id user).
  { intros x Hx E. rewrite map_app in Hnd. cbn [map] in Hnd.
    apply NoDup_remove_2 in Hnd. apply Hnd. apply in_or_app. left.
    rewrite <- E. apply in_map. exact Hx. }
  assert (Hdb1 : fst r1 = (pre ++ User.set_resetPasswordLink token user
                             :: post)%list).
  { subst r1. rewrite (forgetPassword_stores D w1 _ email user Hf1 Hw1).
    apply updateOne_one_place. exact Hnd. }
  assert (Hmail : In (SendEmail (emailForgetPasswordParams email token)
                        (negb (sendEmail_rejects w1))) (snd r1)).
  { subst r1 token. unfold forgetPassword, reset_token.
    rewrite Hf1, Hw1.
    destruct (sendEmail_rejects w1); right; left; reflexivity. }
  assert (Hf2 : findOne w2 (User.by_resetPasswordLink token) (fst r1)
                = (false, Some (User.set_resetPasswordLink token user))).
  { unfold findOne. rewrite He2, Hdb1. f_equal. f_equal.
    apply find_after_misses.
    - intros x Hx. apply String.eqb_neq. intros E.
      apply (Hids x Hx). apply Honly; [|exact E].
      apply in_or_app. left. exact Hx.
    - apply String.eqb_refl. }
  assert (Hr2 : r2 = (User.save (User.extend user newPassword "") (fst r1),
                      [Persist (User.extend user newPassword "") true;
                       Respond 200 (message "Reset password is success.")])).
  { subst r2. unfold resetPassword.
    rewrite (truthy_link token Hne), Hf2, Hw2.
    destruct (jwt.verify _ _ _ _); [reflexivity|contradiction]. }
  assert (Hdb2 : fst r2 = (pre ++ User.extend user newPassword "" :: post)%list).
  { rewrite Hr2. cbn [fst]. rewrite Hdb1. apply save_one_place.
    - rewrite map_app. cbn [map]. rewrite map_app in Hnd. exact Hnd.
    - reflexivity. }
  split; [exact Hmail|].
  split; [rewrite Hr2; reflexivity|].
  split.
  - rewrite Hdb2. apply find_after_misses; [exact Hpre|exact Hu].
  - rewrite Hdb2, !map_app. reflexivity.
Qed.

(** ** Lookup errors *)

(** X15: login, forgetPassword and the middlewares treat a lookup error
    as an absent account and refuse.  register and registerActivate do
    not look at the error: whatever the collection holds, register does
    not answer "Email is taken", and registerActivate, given a token
    that verifies and a store that takes the write, appends the
    account. *)
Theorem lookup_error_is_refused_or_ignored :
  forall (w : World) (db : User.collection)
         (name email password token id : string),
    findOne_err w = true ->
    let code := process.APPLICATION_ERROR_CODE (env D) in
    login D w db email password =
      (db, [Respond code
              (error "User with that email doesn't exists. Please register.")]) /\
    forgetPassword D w db email =
      (db, [Respond code (error "User with that email does not exists")]) /\
    authMiddleware D w db id = (None, [Respond code (error "User is not found")]) /\
    adminMiddleware D w db id = (None, [Respond code (error "User is not found")]) /\
    ~ In (Respond 400 (error "Email is taken"))
         (snd (register D w db name email password)) /\
    (jwt.verify (jwtlib D) token
       (process.JWT_ACCOUNT_ACTIVATION (env D)) (now w) <> None ->
     write_err w = false ->
     fst (registerActivate D w db token) =
       User.insert
         (new_User D w (shortId_generate w)
            (reg_name (jwt.decode (jwtlib D) token))
            (reg_email (jwt.decode (jwtlib D) token))
            (reg_password (jwt.decode (jwtlib D) token))) db).
Proof.
  intros w db name email password token id He code. subst code.
  unfold login, forgetPassword, authMiddleware, adminMiddleware, register,
    registerActivate, findOne.
  rewrite He. cbn [snd].
  repeat (split; [reflexivity|]).
  split.
  - destruct (sendEmail_rejects w); intros [H|[H|[]]]; discriminate.
  - intros Hv Hw. destruct (jwt.verify _ _ _ _); [|contradiction].
    rewrite Hw. reflexivity.
Qed.

(** ** The shape of the responses *)

Lemma configured_error_well_formed (code : Z) (msg : string) :
  well_formed code (Respond code (error msg)) = true.
Proof.
  unfold well_formed, error. cbn [is_error_body andb].
  rewrite Z.eqb_refl, !orb_true_r. reflexivity.
Qed.

(** Closes a goal on a trace that is known event by event. *)
Ltac checked :=
  cbn [snd app forallb negb];
  rewrite ?configured_error_well_formed;
  reflexivity.

(** X14: every response of every handler is well formed: an object
    with the single field error, a string, under status 400, 401, 422
    or the configured error code, or, under status 200, an object with
    the single field message, a string, or login's object of a token
    and a user of four string fields. *)
Theorem responses_well_formed :
  forall (w : World) (db : User.collection)
         (name email password token id newPassword : string)
         (link : option string),
    let ok := forallb (well_formed (process.APPLICATION_ERROR_CODE (env D))) in
    ok (snd (register D w db name email password)) = true /\
    ok (snd (registerActivate D w db token)) = true /\
    ok (snd (login D w db email password)) = true /\
    ok (snd (authMiddleware D w db id)) = true /\
    ok (snd (adminMiddleware D w db id)) = true /\
    ok (snd (forgetPassword D w db email)) = true /\
    ok (snd (resetPassword D w db link newPassword)) = true.
Proof.
  intros w db name email password token id newPassword link ok. subst ok.
  repeat split.
  - unfold register. destruct (snd (findOne w _ db)); [checked|].
    destruct (sendEmail_rejects w); checked.
  - unfold registerActivate. destruct (jwt.verify _ _ _ _); [|checked].
    destruct (snd (findOne w _ db)); [checked|].
    destruct (write_err w); checked.
  - unfold login. destruct (findOne w _ db) as [[|] [user|]]; try checked.
    destruct (authenticate D user password); checked.
  - unfold authMiddleware.
    destruct (findOne w _ db) as [[|] [user|]]; checked.
  - unfold adminMiddleware.
    destruct (findOne w _ db) as [[|] [user|]]; try checked.
    destruct (String.eqb (User.role user) (role_admin D)); checked.
  - unfold forgetPassword.
    destruct (findOne w _ db) as [[|] [user|]]; try checked.
    destruct (write_err w); [checked|].
    destruct (sendEmail_rejects w); checked.
  - unfold resetPassword. destruct (truthy link); [|checked].
    destruct (jwt.verify _ _ _ _);
      destruct (findOne w _ db) as [[|] [user|]];
      try destruct (write_err w); checked.
Qed.

(** ** When success is reported *)

(** X16: register never writes to the collection.  When its lookup
    finds an account under the email it answers 400 "Email is taken"
    and sends no mail.  Any mail it sends goes out after a lookup that
    showed no account, to the requested email, with the token signed
    over the request's name, email and password under the activation
    secret; and the client is told of success only when that mail was
    delivered. *)
Theorem register_mails_only_newcomers :
  forall (w : World) (db : User.collection) (name email password : string),
    let r := register D w db name email password in
    let token :=
      jwt.sign (jwtlib D) (ActivationClaims name email password)
        (process.JWT_ACCOUNT_ACTIVATION (env D))
        (process.JWT_EXPIRED (env D)) (now w) in
    fst r = db /\
    (forall d ok, ~ In (Persist d ok) (snd r)) /\
    (forall user,
        snd (findOne w (User.by_email email) db) = Some user ->
        r = (db, [Respond 400 (error "Email is taken")])) /\
    (forall params delivered,
        In (SendEmail params delivered) (snd r) ->
        params = emailVerificationParams email token /\
        snd (findOne w (User.by_email email) db) = None /\
        sendEmail_rejects w = negb delivered) /\
    (forall status msg,
        answer (snd r) = Some (Respond status (message msg)) ->
        In (SendEmail (emailVerificationParams email token) true) (snd r)).
Proof.
  intros w db name email password r token. subst r token. unfold register.
  destruct (snd (findOne w (User.by_email email) db)) as [user|].
  - cbn. split; [reflexivity|]. split; [intros d ok [H|[]]; discriminate|].
    split; [intros; reflexivity|].
    split; [intros params delivered [H|[]]; discriminate|].
    intros status msg H. discriminate.
  - destruct (sendEmail_rejects w); cbn;
      (split; [reflexivity|]);
      (split; [intros d ok [H|[H|[]]]; discriminate|]);
      (split; [discriminate|]);
      (split;
       [intros params delivered [H|[H|[]]]; try discriminate;
        injection H as <- <-; repeat split
       |intros status msg H; try discriminate; left; reflexivity]).
Qed.

Lemma insert_changes (a : User.doc) (db : User.collection) :
  User.insert a db <> db.
Proof.
  unfold User.insert. intros E.
  rewrite <- (app_nil_r db) in E at 2.
  apply app_inv_head in E. discriminate.
Qed.

(** X17: registerActivate reports success exactly when it has stored
    the account, which is exactly when the token verifies, the lookup
    shows no account under the decoded email and the store takes the
    write; the account then holds the decoded fields, the generated
    username and id, the default role and an empty reset link. *)
Theorem registerActivate_creates_iff :
  forall (w : World) (db : User.collection) (token : string),
    let r := registerActivate D w db token in
    let decoded := jwt.decode (jwtlib D) token in
    let account :=
      User.mk (new_ObjectId w) (shortId_generate w) (reg_name decoded)
        (reg_email decoded) (reg_password decoded) (role_default D) "" in
    let created :=
      jwt.verify (jwtlib D) token
        (process.JWT_ACCOUNT_ACTIVATION (env D)) (now w) <> None /\
      snd (findOne w (User.by_email (reg_email decoded)) db) = None /\
      write_err w = false in
    (existsb reports_success (snd r) = true <-> created) /\
    (fst r <> db <-> created) /\
    (fst r <> db -> fst r = (db ++ [account])%list).
Proof.
  intros w db token r decoded account created.
  subst r decoded account created. unfold registerActivate.
  destruct (jwt.verify (jwtlib D) token _ (now w)) eqn:Hv.
  - destruct (snd (findOne w _ db)) eqn:Hf.
    + cbn [fst snd]. split; [|split].
      * split; [discriminate|intros [_ [H _]]; discriminate].
      * split; [intros H; elim H; reflexivity|intros [_ [H _]]; discriminate].
      * intros H; elim H; reflexivity.
    + destruct (write_err w) eqn:Hw; cbn [fst snd].
      * split; [|split].
        -- split; [discriminate|intros [_ [_ H]]; discriminate].
        -- split; [intros H; elim H; reflexivity
                  |intros [_ [_ H]]; discriminate].
        -- intros H; elim H; reflexivity.
      * split; [|split].
        -- split; [intros _; repeat split; discriminate|reflexivity].
        -- split; [intros _; repeat split; discriminate
                  |intros _; apply insert_changes].
        -- intros _. reflexivity.
  - cbn [fst snd]. split; [|split].
    + split; [discriminate|intros [H _]; elim H; reflexivity].
    + split; [intros H; elim H; reflexivity|intros [H _]; elim H; reflexivity].
    + intros H; elim H; reflexivity.
Qed.

(** X18: forgetPassword tells the client of success only when the
    account was found, the store took the link and the mail was
    delivered; the account found under the email then holds the very
    token of the delivered mail, the one signed for it, and the
    collection is the old one with that link patched in. *)
Theorem forgetPassword_success_means_stored :
  forall (w : World) (db : User.collection) (email : string)
         (status : Z) (msg : string),
    let r := forgetPassword D w db email in
    answer (snd r) = Some (Respond status (message msg)) ->
    exists user,
      findOne w (User.by_email email) db = (false, Some user) /\
      write_err w = false /\ sendEmail_rejects w = false /\
      fst r = User.updateOne user
                (User.set_resetPasswordLink (reset_token D w user)) db /\
      User.find_first (User.by_email email) (fst r)
        = Some (User.set_resetPasswordLink (reset_token D w user) user) /\
      snd r =
        [Persist (User.set_resetPasswordLink (reset_token D w user) user) true;
         SendEmail (emailForgetPasswordParams email (reset_token D w user))
           true;
         Respond status (message msg)].
Proof.
  intros w db email status msg r. subst r.
  unfold forgetPassword, reset_token.
  destruct (findOne w (User.by_email email) db) as [[|] [user|]] eqn:Hf;
    try (intros H; discriminate).
  destruct (write_err w); [intros H; discriminate|].
  destruct (sendEmail_rejects w); [intros H; discriminate|].
  cbn [fst snd]. intros H. exists user.
  repeat (split; [reflexivity|]).
  split.
  - apply updateOne_found_by_email.
    unfold findOne in Hf. destruct (findOne_err w); [discriminate|].
    injection Hf as Hf. exact Hf.
  - cbn in H. injection H as <- <-. reflexivity.
Qed.

(** A rewrite that gives back the list leaves each element alone. *)
Lemma map_fixed {A : Type} (f : A -> A) (l : list A) (x : A) :
  map f l = l -> In x l -> f x = x.
Proof.
  induction l as [|a l IH]; intros Hm Hin; [contradiction|].
  cbn [map] in Hm. injection Hm as Ha Hl.
  destruct Hin as [<-|Hin]; [exact Ha|exact (IH Hl Hin)].
Qed.

(** X19: resetPassword changes the collection exactly when the link is
    not empty, an account holding it is found and the store takes the
    write, whether or not the link verifies.  The client is answered
    with the success message exactly when, in addition, the link
    verifies; a change made under a link that does not verify is
    answered with the expired-token error. *)
Theorem resetPassword_changes_and_answers :
  forall (w : World) (db : User.collection) (link newPassword : string),
    let r := resetPassword D w db (Some link) newPassword in
    let found :=
      exists user,
        findOne w (User.by_resetPasswordLink link) db = (false, Some user) in
    let verifies :=
      jwt.verify (jwtlib D) link
        (process.JWT_RESET_PASSWORD (env D)) (now w) <> None in
    (fst r <> db <-> link <> "" /\ found /\ write_err w = false) /\
    (answer (snd r) = Some (Respond 200 (message "Reset password is success."))
     <-> link <> "" /\ verifies /\ found /\ write_err w = false) /\
    (fst r <> db -> ~ verifies ->
     answer (snd r) =
       Some (Respond (process.APPLICATION_ERROR_CODE (env D))
               (error "Token is expired. Try again later."))).
Proof.
  intros w db link newPassword r found verifies.
  subst r found verifies. unfold resetPassword, truthy.
  destruct (String.eqb_spec link "") as [E|E]; cbn [negb].
  { cbn [fst snd]. split; [|split].
    - split; [intros H; elim H; reflexivity|intros [H _]; contradiction].
    - split; [discriminate|intros [H _]; contradiction].
    - intros H; elim H; reflexivity. }
  destruct (findOne w (User.by_resetPasswordLink link) db)
    as [[|] [user|]] eqn:Hf;
    [exfalso; exact (findOne_err_finds_nobody _ _ _ _ Hf)|..].
  - cbn [fst]. split; [|split].
    + split; [intros H; elim H; reflexivity
             |intros [_ [[u Hu] _]]; discriminate].
    + split; [|intros [_ [_ [[u Hu] _]]]; discriminate].
      destruct (jwt.verify _ _ _ _); cbn; discriminate.
    + intros H; elim H; reflexivity.
  - destruct (write_err w) eqn:Hw; cbn [fst].
    + split; [|split].
      * split; [intros H; elim H; reflexivity
               |intros [_ [_ H]]; discriminate].
      * split; [|intros [_ [_ [_ H]]]; discriminate].
        destruct (jwt.verify _ _ _ _); cbn; discriminate.
      * intros H; elim H; reflexivity.
    + assert (Hch : User.save (User.extend user newPassword "") db <> db).
      { intros Hm. destruct (found_in _ _ _ _ Hf) as [Hin Hq].
        unfold User.save in Hm.
        pose proof (map_fixed _ _ _ Hm Hin) as Hu. cbn beta in Hu.
        unfold User.extend in Hu at 1. cbn [User._id] in Hu.
        rewrite String.eqb_refl in Hu.
        apply (f_equal User.resetPasswordLink) in Hu.
        cbn [User.extend User.resetPasswordLink] in Hu.
        unfold User.by_resetPasswordLink in Hq.
        apply String.eqb_eq in Hq. congruence. }
      split; [|split].
      * split; [intros _; repeat split; eauto|intros _; exact Hch].
      * destruct (jwt.verify (jwtlib D) link _ (now w)) eqn:Hv; cbn.
        -- split; [intros _; repeat split; eauto; discriminate|reflexivity].
        -- split; [discriminate|intros [_ [H _]]; elim H; reflexivity].
      * intros _ Hnv.
        destruct (jwt.verify (jwtlib D) link _ (now w)) eqn:Hv; cbn;
          [elim Hnv; discriminate|reflexivity].
  - cbn [fst]. split; [|split].
    + split; [intros H; elim H; reflexivity
             |intros [_ [[u Hu] _]]; discriminate].
    + split; [|intros [_ [_ [[u Hu] _]]]; discriminate].
      destruct (jwt.verify _ _ _ _); cbn; discriminate.
    + intros H; elim H; reflexivity.
Qed.

End Coverage.

(** ** Runs of the further properties on the concrete instance *)

(** The shared link of second 100 is presented at second 200: [al],
    the first holder, is the one account that changes. *)
Lemma resetPassword_changes_one_account_witness :
  NoDup (map User._id Demo.shared) /\
  (fst (resetPassword Demo.deps (Demo.calm 200) Demo.shared
          (Some Demo.first_link) "n1") = Demo.shared \/
   exists pre user post l,
     Some Demo.first_link = Some l /\ l <> "" /\
     Demo.shared = (pre ++ user :: post)%list /\
     fst (resetPassword Demo.deps (Demo.calm 200) Demo.shared
            (Some Demo.first_link) "n1")
       = (pre ++ User.extend user "n1" "" :: post)%list /\
     User.resetPasswordLink user = l /\
     (forall x, In x pre -> User.resetPasswordLink x <> l) /\
     identity (User.extend user "n1" "") = identity user).
Proof.
  assert (H : NoDup (map User._id Demo.shared)).
  { cbv. repeat (constructor; [cbn; intuition discriminate|]). constructor. }
  split; [exact H|].
  exact (resetPassword_changes_one_account Demo.deps (Demo.calm 200)
           Demo.shared (Some Demo.first_link) "n1" H).
Defined.


(** A newcomer registers at second 100, activates at second 200, and
    the token is replayed at second 300. *)
Lemma register_then_activate_witness :
  (User.find_first (User.by_email "bo@x.com") Demo.accounts = None /\
   jwt.verify (jwtlib Demo.deps) Demo.bo_token
     (process.JWT_ACCOUNT_ACTIVATION (env Demo.deps)) (now (Demo.calm 200))
     <> None /\
   jwt.decode (jwtlib Demo.deps) Demo.bo_token
     = mkRegistration "Bo" "bo@x.com" "pb" /\
   findOne_err (Demo.calm 200) = false /\
   write_err (Demo.calm 200) = false /\
   findOne_err (Demo.calm 300) = false) /\
  registerActivate Demo.deps (Demo.calm 200) Demo.accounts Demo.bo_token =
    (User.insert Demo.bo Demo.accounts,
     [Persist Demo.bo true;
      Respond 200 (message "Registration success. Please login.")]) /\
  snd (registerActivate Demo.deps (Demo.calm 300)
         (fst (registerActivate Demo.deps (Demo.calm 200) Demo.accounts
                 Demo.bo_token))
         Demo.bo_token) =
    [Respond 401 (error "Email is already taken")].
Proof.
  assert (Hv2 : jwt.verify (jwtlib Demo.deps) Demo.bo_token
                  (process.JWT_ACCOUNT_ACTIVATION (env Demo.deps))
                  (now (Demo.calm 200)) <> None) by discriminate.
  assert (Hv3 : jwt.verify (jwtlib Demo.deps) Demo.bo_token
                  (process.JWT_ACCOUNT_ACTIVATION (env Demo.deps))
                  (now (Demo.calm 300)) <> None) by discriminate.
  pose proof (register_then_activate Demo.deps (Demo.calm 100) (Demo.calm 200)
                (Demo.calm 300) Demo.accounts "Bo" "bo@x.com" "pb"
                eq_refl Hv2 eq_refl eq_refl eq_refl eq_refl) as T.
  cbv zeta in T. destruct T as [_ [_ [T1 [_ [_ T2]]]]].
  split; [repeat split; exact Hv2|].
  split; [exact T1|exact (T2 Hv3)].
Defined.

(** The newcomer's account passes the account gate and not the admin
    gate. *)
Lemma activated_account_is_not_admin_witness :
  (jwt.verify (jwtlib Demo.deps) Demo.bo_token
     (process.JWT_ACCOUNT_ACTIVATION (env Demo.deps)) (now (Demo.calm 200))
     <> None /\
   snd (findOne (Demo.calm 200)
          (User.by_email
             (reg_email (jwt.decode (jwtlib Demo.deps) Demo.bo_token)))
          Demo.accounts) = None /\
   write_err (Demo.calm 200) = false /\
   (forall x, In x Demo.accounts ->
              User._id x <> new_ObjectId (Demo.calm 200)) /\
   role_default Demo.deps <> role_admin Demo.deps /\
   findOne_err (Demo.calm 300) = false) /\
  authMiddleware Demo.deps (Demo.calm 300)
    (fst (registerActivate Demo.deps (Demo.calm 200) Demo.accounts
            Demo.bo_token)) "id-9" = (Some Demo.bo, [Next]) /\
  adminMiddleware Demo.deps (Demo.calm 300)
    (fst (registerActivate Demo.deps (Demo.calm 200) Demo.accounts
            Demo.bo_token)) "id-9" =
    (None, [Respond 400 (error "Admin resource. Access is denied.")]).
Proof.
  assert (Hv : jwt.verify (jwtlib Demo.deps) Demo.bo_token
                 (process.JWT_ACCOUNT_ACTIVATION (env Demo.deps))
                 (now (Demo.calm 200)) <> None) by discriminate.
  assert (Hfresh : forall x, In x Demo.accounts ->
                     User._id x <> new_ObjectId (Demo.calm 200)).
  { intros x [<-|[<-|[<-|[]]]]; discriminate. }
  assert (Hrole : role_default Demo.deps <> role_admin Demo.deps)
    by discriminate.
  pose proof (activated_account_is_not_admin Demo.deps (Demo.calm 200)
                (Demo.calm 300) Demo.accounts Demo.bo_token
                Hv eq_refl eq_refl Hfresh Hrole eq_refl) as T.
  cbv zeta in T. destruct T as [_ [T1 T2]].
  split; [repeat split; assumption|].
  split; [exact T1|exact T2].
Defined.

(** [al] asks for a link at second 100 and uses it at second 200. *)
Lemma forgetPassword_then_resetPassword_witness :
  (NoDup (map User._id Demo.accounts) /\
   findOne (Demo.calm 100) (User.by_email "al@x.com") Demo.accounts
     = (false, Some Demo.al) /\
   write_err (Demo.calm 100) = false /\
   reset_token Demo.deps (Demo.calm 100) Demo.al <> "" /\
   (forall x, In x Demo.accounts ->
      User.resetPasswordLink x = reset_token Demo.deps (Demo.calm 100) Demo.al ->
      User._id x = User._id Demo.al) /\
   jwt.verify (jwtlib Demo.deps) (reset_token Demo.deps (Demo.calm 100) Demo.al)
     (process.JWT_RESET_PASSWORD (env Demo.deps)) (now (Demo.calm 200))
     <> None /\
   findOne_err (Demo.calm 200) = false /\
   write_err (Demo.calm 200) = false) /\
  snd (resetPassword Demo.deps (Demo.calm 200)
         (fst (forgetPassword Demo.deps (Demo.calm 100) Demo.accounts
                 "al@x.com"))
         (Some Demo.first_link) "n1") =
    [Persist (User.extend Demo.al "n1" "") true;
     Respond 200 (message "Reset password is success.")] /\
  User.find_first (User.by_email "al@x.com")
    (fst (resetPassword Demo.deps (Demo.calm 200)
            (fst (forgetPassword Demo.deps (Demo.calm 100) Demo.accounts
                    "al@x.com"))
            (Some Demo.first_link) "n1"))
    = Some (User.extend Demo.al "n1" "").
Proof.
  assert (H0 : NoDup (map User._id Demo.accounts)).
  { cbv. repeat (constructor; [cbn; intuition discriminate|]). constructor. }
  assert (H1 : reset_token Demo.deps (Demo.calm 100) Demo.al <> "")
    by discriminate.
  assert (H2 : forall x, In x Demo.accounts ->
                 User.resetPasswordLink x
                   = reset_token Demo.deps (Demo.calm 100) Demo.al ->
                 User._id x = User._id Demo.al).
  { intros x [<-|[<-|[<-|[]]]] H; try reflexivity; discriminate H. }
  assert (H3 : jwt.verify (jwtlib Demo.deps)
                 (reset_token Demo.deps (Demo.calm 100) Demo.al)
                 (process.JWT_RESET_PASSWORD (env Demo.deps))
                 (now (Demo.calm 200)) <> None) by discriminate.
  pose proof (forgetPassword_then_resetPassword Demo.deps (Demo.calm 100)
                (Demo.calm 200) Demo.accounts "al@x.com" "n1" Demo.al
                H0 eq_refl eq_refl H1 H2 H3 eq_refl eq_refl) as T.
  cbv zeta in T. destruct T as [_ [T1 [T2 _]]].
  split; [repeat split; assumption|].
  split; [exact T1|exact T2].
Defined.

(** The lookup fails while a token for [al]'s stored email is
    activated: login is refused, and a second account with the same
    email is appended. *)
Lemma lookup_error_is_refused_or_ignored_witness :
  findOne_err (Demo.lookup_down 100) = true /\
  (jwt.verify (jwtlib Demo.deps) "activation-secret|a,Al,al@x.com,p1|700"
     (process.JWT_ACCOUNT_ACTIVATION (env Demo.deps))
     (now (Demo.lookup_down 100)) <> None /\
   write_err (Demo.lookup_down 100) = false) /\
  login Demo.deps (Demo.lookup_down 100) Demo.accounts "al@x.com" "p1" =
    (Demo.accounts,
     [Respond 400
        (error "User with that email doesn't exists. Please register.")]) /\
  fst (registerActivate Demo.deps (Demo.lookup_down 100) Demo.accounts
         "activation-secret|a,Al,al@x.com,p1|700") =
    [Demo.root; Demo.al; Demo.al2;
     User.mk "id-9" "u-1" "Al" "al@x.com" "p1" "regular" ""].
Proof.
  assert (Hv : jwt.verify (jwtlib Demo.deps)
                 "activation-secret|a,Al,al@x.com,p1|700"
                 (process.JWT_ACCOUNT_ACTIVATION (env Demo.deps))
                 (now (Demo.lookup_down 100)) <> None) by discriminate.
  pose proof (lookup_error_is_refused_or_ignored Demo.deps
                (Demo.lookup_down 100) Demo.accounts "Al" "al@x.com" "p1"
                "activation-secret|a,Al,al@x.com,p1|700" "id-1" eq_refl) as T.
  cbv zeta in T. destruct T as [T1 [_ [_ [_ [_ T2]]]]].
  split; [reflexivity|split; [split; [exact Hv|reflexivity]|]].
  split; [exact T1|exact (T2 Hv eq_refl)].
Defined.

(** [al] passes the account gate; an unknown id does not. *)
Lemma authMiddleware_gate_witness :
  findOne (Demo.calm 100) (User.by_id "id-1") Demo.accounts
    = (false, Some Demo.al) /\
  authMiddleware Demo.deps (Demo.calm 100) Demo.accounts "id-1"
    = (Some Demo.al, [Next]) /\
  authMiddleware Demo.deps (Demo.calm 100) Demo.accounts "id-7"
    = (None, [Respond 400 (error "User is not found")]).
Proof.
  split; [reflexivity|split].
  - exact (proj1 (proj1 (authMiddleware_gate Demo.deps (Demo.calm 100)
                           Demo.accounts "id-1") Demo.al eq_refl)).
  - exact (proj1 (proj2 (authMiddleware_gate Demo.deps (Demo.calm 100)
                           Demo.accounts "id-7")) eq_refl).
Defined.

(** [root] passes both gates; [al] passes the account gate only. *)
Lemma adminMiddleware_narrows_authMiddleware_witness :
  (findOne (Demo.calm 100) (User.by_id "id-0") Demo.accounts
     = (false, Some Demo.root) /\
   User.role Demo.root = role_admin Demo.deps /\
   findOne (Demo.calm 100) (User.by_id "id-1") Demo.accounts
     = (false, Some Demo.al) /\
   User.role Demo.al <> role_admin Demo.deps) /\
  adminMiddleware Demo.deps (Demo.calm 100) Demo.accounts "id-0"
    = (Some Demo.root, [Next]) /\
  authMiddleware Demo.deps (Demo.calm 100) Demo.accounts "id-1"
    = (Some Demo.al, [Next]) /\
  adminMiddleware Demo.deps (Demo.calm 100) Demo.accounts "id-1"
    = (None, [Respond 400 (error "Admin resource. Access is denied.")]).
Proof.
  assert (Hrole : User.role Demo.al <> role_admin Demo.deps) by discriminate.
  split; [repeat split; exact Hrole|].
  split.
  - exact (proj2 (proj1 (adminMiddleware_narrows_authMiddleware Demo.deps
                           (Demo.calm 100) Demo.accounts "id-0")
                    Demo.root eq_refl eq_refl)).
  - exact (proj1 (proj2 (adminMiddleware_narrows_authMiddleware Demo.deps
                           (Demo.calm 100) Demo.accounts "id-1"))
             Demo.al eq_refl Hrole).
Defined.

(** [al] asks for a link at second 100 and is told of success. *)
Lemma forgetPassword_success_means_stored_witness :
  answer (snd (forgetPassword Demo.deps (Demo.calm 100) Demo.accounts
                 "al@x.com"))
    = Some (Respond 200 (message
        "Email has been sent to al@x.com. Click on the link to reset password")) /\
  exists user,
    findOne (Demo.calm 100) (User.by_email "al@x.com") Demo.accounts
      = (false, Some user) /\
    User.find_first (User.by_email "al@x.com")
      (fst (forgetPassword Demo.deps (Demo.calm 100) Demo.accounts "al@x.com"))
      = Some (User.set_resetPasswordLink
                (reset_token Demo.deps (Demo.calm 100) user) user).
Proof.
  split; [reflexivity|].
  destruct (forgetPassword_success_means_stored Demo.deps (Demo.calm 100)
              Demo.accounts "al@x.com" 200
              "Email has been sent to al@x.com. Click on the link to reset password"
              eq_refl) as [user [H1 [_ [_ [_ [H2 _]]]]]].
  exists user. split; [exact H1|exact H2].
Defined.
